(** * Semantic CV Analyzer: the analysis core of [app.py]

    A shallow embedding of [AnalysisResult.from_dict],
    [PDFProcessor.extract_text], [AIAnalyzer._configure_model] and
    [AIAnalyzer.analyze], and the properties of the specification that
    concern them; then of [UIRenderer] and [main], the page that calls
    them, with further properties of the code.

    Python values are the values [json.loads] can produce.  A Python [str]
    is a list of Unicode code points.  Exceptions are values of class
    [Exception].  The libraries outside the repository are not modelled:
    an object of PyPDF2 or google.generativeai is the record of what its
    methods answer, [json.loads], the [genai] module and the interpreter's
    Unicode database are interfaces the definitions are parameterised
    over, and what goes to streamlit and logging is kept as a list of
    events. *)

From Stdlib Require Import ZArith NArith String Ascii Lia DecimalString.
From Stdlib Require Import Floats.SpecFloat.
From stdpp Require Import base tactics option list gmap.

Open Scope Z_scope.

(** ** Strings *)

(** A Python [str]: its code points, in order. *)
Abbreviation str := (list N).

(** An ASCII literal of the source, as a [str]. *)
Definition lit (s : string) : str :=
  (λ a, N_of_ascii a) <$> list_ascii_of_string s.
Arguments lit : simpl never.

(** [sub in s] of Python: [sub] occurs in [s] as a contiguous run. *)
Definition substring (sub s : str) : Prop :=
  ∃ before after, s = before ++ sub ++ after.

(** [sep.join(parts)]. *)
Fixpoint join (sep : str) (parts : list str) : str :=
  match parts with
  | [] => []
  | [p] => p
  | p :: rest => p ++ sep ++ join sep rest
  end.

(** ** Exceptions and results *)

(** The classes of exception the modelled code can meet.  All of them are
    subclasses of [Exception], which is what the handlers of the source
    catch.  [LibraryError] stands for any exception raised by code outside
    the repository, with its message. *)
Inductive exn :=
  | ValueError
  | TypeError
  | OverflowError
  | AttributeError
  | LibraryError (message : str).

Inductive result (A : Type) :=
  | Ok (a : A)
  | Raise (e : exn).
Arguments Ok {A} a.
Arguments Raise {A} e.

#[export] Instance result_ret : MRet result := λ A a, Ok a.
#[export] Instance result_bind : MBind result := λ A B k r,
  match r with
  | Ok a => k a
  | Raise e => Raise e
  end.
#[export] Instance result_fmap : FMap result := λ A B f r,
  match r with
  | Ok a => Ok (f a)
  | Raise e => Raise e
  end.

(** ** Python values *)

(** The values [json.loads] returns: [None], [bool], [int], [float], [str],
    [list] and [dict] with [str] keys.  A [float] is an IEEE 754 value. *)
#[warnings="-register-all"]
Inductive pyval :=
  | PNone
  | PBool (b : bool)
  | PInt (z : Z)
  | PFloat (f : spec_float)
  | PStr (s : str)
  | PList (l : list pyval)
  | PDict (d : gmap str pyval).

(** Truth value of an object in a condition ([if x], [if not x]). *)
Definition truthy (v : pyval) : bool :=
  match v with
  | PNone => false
  | PBool b => b
  | PInt z => negb (z =? 0)
  | PFloat (S754_zero _) => false
  | PFloat _ => true
  | PStr s => negb (bool_decide (s = []))
  | PList l => negb (bool_decide (length l = 0%nat))
  | PDict d => negb (bool_decide (size d = 0%nat))
  end.

(** ** The built-in [int()] *)

(** What [int()] takes from the interpreter: the Unicode database for the
    code points above ASCII ([_PyUnicode_IsWhitespace],
    [_PyUnicode_ToDecimalDigit]) and the limit on the number of digits of
    a decimal literal ([sys.get_int_max_str_digits()], 0 when there is
    none). *)
Class Interpreter := {
  _PyUnicode_IsWhitespace : N → bool;
  _PyUnicode_ToDecimalDigit : N → option N;
  max_str_digits : N;
}.

(** [Py_ISSPACE]: tab, line feed, vertical tab, form feed, carriage
    return, space. *)
Definition Py_ISSPACE (c : N) : bool :=
  ((9 <=? c) && (c <=? 13) || (c =? 32))%N.

(** [_Py_ascii_whitespace]: the same and the four separators 0x1C to
    0x1F. *)
Definition ascii_whitespace (c : N) : bool :=
  ((9 <=? c) && (c <=? 13) || (28 <=? c) && (c <=? 32))%N.

Definition is_ascii_digit (c : N) : bool := ((48 <=? c) && (c <=? 57))%N.

(** [Py_UNICODE_ISSPACE]: a table for ASCII, the database above. *)
Definition Py_UNICODE_ISSPACE `{Interpreter} (ch : N) : bool :=
  if (ch <? 128)%N then ascii_whitespace ch else _PyUnicode_IsWhitespace ch.

(** [Py_UNICODE_TODECIMAL]: in ASCII the database has the digits ['0'] to
    ['9'] and no other decimal digit. *)
Definition Py_UNICODE_TODECIMAL `{Interpreter} (ch : N) : option N :=
  if (ch <? 128)%N then
    if is_ascii_digit ch then Some (ch - 48)%N else None
  else _PyUnicode_ToDecimalDigit ch.

Definition underscore : N := 95.
Definition plus_sign : N := 43.
Definition minus_sign : N := 45.
Definition question_mark : N := 63.

Section int.
Context `{Interpreter}.

(** [_PyUnicode_TransformDecimalAndSpaceToASCII]: an ASCII string is
    returned as it is; otherwise spaces become [' '], decimal digits
    become ASCII digits, and the first other code point above ASCII
    becomes ['?'] and ends the string. *)
Fixpoint transform_chars (s : str) : str :=
  match s with
  | [] => []
  | ch :: rest =>
      if (ch <? 127)%N then ch :: transform_chars rest
      else if Py_UNICODE_ISSPACE ch then 32%N :: transform_chars rest
      else match Py_UNICODE_TODECIMAL ch with
           | None => [question_mark]
           | Some decimal => (48 + decimal)%N :: transform_chars rest
           end
  end.

Definition transform_decimal_and_space_to_ascii (s : str) : str :=
  if forallb (λ ch, (ch <? 128)%N) s then s else transform_chars s.

Fixpoint skip_spaces (s : str) : str :=
  match s with
  | c :: rest => if Py_ISSPACE c then skip_spaces rest else s
  | [] => []
  end.

(** The scan of digits and underscores of [long_from_string_base]:
    [prev] is the code point before, [acc] the value and [digits] the
    number of digits read so far.  [None] is the syntax error of a
    doubled or trailing underscore; otherwise the value, the number of
    digits and what follows the literal. *)
Fixpoint scan_digits (prev : N) (acc : Z) (digits : N) (p : str)
    : option (Z * N * str) :=
  match p with
  | c :: rest =>
      if is_ascii_digit c then
        scan_digits c (acc * 10 + Z.of_N (c - 48)) (digits + 1)%N rest
      else if (c =? underscore)%N then
        if (prev =? underscore)%N then None
        else scan_digits c acc digits rest
      else if (prev =? underscore)%N then None
      else Some (acc, digits, p)
  | [] => if (prev =? underscore)%N then None else Some (acc, digits, [])
  end.

(** [_PY_LONG_MAX_STR_DIGITS_THRESHOLD]. *)
Definition max_str_digits_threshold : N := 640.

(** [PyLong_FromString] in base 10 on the transformed string: spaces, a
    sign, digits with single underscores between them, spaces.  Every
    failure is a [ValueError]. *)
Definition long_from_string (s : str) : option Z :=
  let s := skip_spaces s in
  let '(negative, s) :=
    match s with
    | c :: rest =>
        if (c =? plus_sign)%N then (false, rest)
        else if (c =? minus_sign)%N then (true, rest)
        else (false, s)
    | [] => (false, s)
    end in
  match s with
  | c :: _ => if (c =? underscore)%N then None else
      match scan_digits 0%N 0 0%N s with
      | None => None
      | Some (z, digits, rest) =>
          if (digits =? 0)%N then None
          else match skip_spaces rest with
               | _ :: _ => None
               | [] =>
                   if (max_str_digits_threshold <? digits)%N
                      && (0 <? max_str_digits)%N
                      && (max_str_digits <? digits)%N
                   then None
                   else Some (if negative : bool then - z else z)
               end
      end
  | [] => None
  end.

Definition int_of_str (s : str) : result Z :=
  match long_from_string (transform_decimal_and_space_to_ascii s) with
  | Some z => Ok z
  | None => Raise ValueError
  end.

(** [int(float)]: the value truncated towards zero; [OverflowError] on
    an infinity, [ValueError] on a NaN. *)
Definition int_of_float (f : spec_float) : result Z :=
  match f with
  | S754_zero _ => Ok 0
  | S754_infinity _ => Raise OverflowError
  | S754_nan => Raise ValueError
  | S754_finite negative m e =>
      let magnitude := Z.shiftl (Z.pos m) e in
      Ok (if negative then - magnitude else magnitude)
  end.

(** [int(x)]. *)
Definition int (x : pyval) : result Z :=
  match x with
  | PInt z => Ok z
  | PBool b => Ok (if b then 1 else 0)
  | PFloat f => int_of_float f
  | PStr s => int_of_str s
  | PNone | PList _ | PDict _ => Raise TypeError
  end.
End int.

(** ** Data model *)

(** [AnalysisResult].  The dataclass does not check the annotated types at
    run time: the last three fields hold whatever object they are given. *)
Record AnalysisResult := {
  technical_score : Z;
  experience_score : Z;
  soft_skill_score : Z;
  overall_average : Z;
  missing_keywords : pyval;
  candidate_summary : pyval;
  interview_question : pyval;
}.

(** [data.get(key, default)]: the method exists on a [dict] only. *)
Definition get (data : pyval) (key : str) (fallback : pyval) : result pyval :=
  match data with
  | PDict d => Ok (default fallback (d !! key))
  | PNone | PBool _ | PInt _ | PFloat _ | PStr _ | PList _ =>
      Raise AttributeError
  end.

Section from_dict.
Context `{Interpreter}.

(** [AnalysisResult.from_dict]: the arguments of [cls(...)] are
    evaluated in the order they are written. *)
Definition from_dict (data : pyval) : result AnalysisResult :=
  technical ← get data (lit "technical_score") (PInt 0) ≫= int;
  experience ← get data (lit "experience_score") (PInt 0) ≫= int;
  soft_skill ← get data (lit "soft_skill_score") (PInt 0) ≫= int;
  overall ← get data (lit "overall_average") (PInt 0) ≫= int;
  keywords ← get data (lit "missing_keywords") (PList []);
  summary ← get data (lit "candidate_summary") (PStr (lit "N/A"));
  question ← get data (lit "interview_question") (PStr (lit "N/A"));
  mret {| technical_score := technical;
          experience_score := experience;
          soft_skill_score := soft_skill;
          overall_average := overall;
          missing_keywords := keywords;
          candidate_summary := summary;
          interview_question := question |}.
End from_dict.

(** ** Effects *)

(** What the modelled code does to the outside, in the order it does it:
    the calls of the generation capability and of the JSON decoder, the
    messages shown with [st.error] and those written with
    [logger.error].  A message built as [f"...{e}"] is kept as its fixed
    text and the exception formatted after it. *)
Inductive event :=
  | generate_content_call (prompt : str)
  | json_loads_call (text : str)
  | st_error (text : str) (formatted : option exn)
  | logger_error (text : str) (formatted : exn).

(** A computation: the events it emitted and how it ended. *)
Record prog (A : Type) := Prog {
  events : list event;
  outcome : result A;
}.
Arguments Prog {A} events outcome.
Arguments events {A} p.
Arguments outcome {A} p.

#[export] Instance prog_ret : MRet prog := λ A a, Prog [] (Ok a).
#[export] Instance prog_bind : MBind prog := λ A B k p,
  match outcome p with
  | Ok a => Prog (events p ++ events (k a)) (outcome (k a))
  | Raise e => Prog (events p) (Raise e)
  end.

(** An evaluation with no effect of its own. *)
Definition pure {A} (r : result A) : prog A := Prog [] r.

(** A call into a library: the call is recorded, then it returns or
    raises. *)
Definition call {A} (ev : event) (r : result A) : prog A := Prog [ev] r.

Definition emit (ev : event) : prog () := Prog [ev] (Ok ()).

(** [try: body except Exception as e: handler]. *)
Definition try_except {A} (body : prog A) (handler : exn → prog A) : prog A :=
  match outcome body with
  | Ok a => body
  | Raise e => Prog (events body ++ events (handler e)) (outcome (handler e))
  end.

(** ** Libraries outside the repository *)

(** The response object of the generation service: reading its [text]
    property may raise. *)
Record GenerateContentResponse := { text : result str }.

(** A [genai.GenerativeModel] object.  It is truthy, as any object with
    neither [__bool__] nor [__len__]. *)
Record GenerativeModel := {
  generate_content : str → result GenerateContentResponse;
}.

(** [google.generativeai]. *)
Class Genai := {
  GenerationConfig : Type;
  genai_configure : str → result ();
  genai_GenerationConfig : str → result GenerationConfig;
  genai_GenerativeModel : str → GenerationConfig → result GenerativeModel;
}.

(** [json.loads]. *)
Class Json := { json_loads : str → result pyval }.

(** A page of a document, as PyPDF2 reads it: [page.extract_text()]
    returns the text of the page or raises.  It gives the same answer
    each time it is called. *)
Record PageObject := { page_extract_text : result str }.

(** An uploaded file, as PyPDF2 reads it: [PyPDF2.PdfReader(uploaded_file)]
    followed by the enumeration of [reader.pages] raises, or gives the
    pages of the document in order. *)
Record UploadedFile := { PdfReader : result (list PageObject) }.

(** ** [PDFProcessor] *)

(** The generator [page.extract_text() for page in reader.pages if
    page.extract_text()]: the text of a page is extracted once for the
    test and, when it is truthy, once more for the value. *)
Fixpoint page_texts (pages : list PageObject) : result (list str) :=
  match pages with
  | [] => mret []
  | page :: rest =>
      tested ← page_extract_text page;
      if truthy (PStr tested) then
        value ← page_extract_text page;
        others ← page_texts rest;
        mret (value :: others)
      else page_texts rest
  end.

(** [PDFProcessor.extract_text].  [PdfReader] stands for the
    construction of the reader and the enumeration of its pages: both
    are inside the [try]. *)
Definition extract_text (uploaded_file : UploadedFile) : prog (option str) :=
  try_except
    (pages ← pure (PdfReader uploaded_file);
     texts ← pure (page_texts pages);
     let text := join (lit " ") texts in
     if negb (truthy (PStr text)) then
       emit (st_error
               (lit "Could not extract text. PDF might be image-based.")
               None);;
       mret None
     else mret (Some text))
    (λ e,
       emit (logger_error (lit "PDF Processing Error: ") e);;
       emit (st_error (lit "Error reading PDF: ") (Some e));;
       mret None).

(** ** [AIAnalyzer] *)

(** [AppConfig.MODEL_NAME]. *)
Definition MODEL_NAME : str := lit "gemini-2.5-flash".

Record AIAnalyzer := { model : option GenerativeModel }.

Section configure.
Context `{Genai}.

(** [AIAnalyzer._configure_model]. *)
Definition _configure_model (api_key : str) : prog (option GenerativeModel) :=
  try_except
    (pure (genai_configure api_key);;
     config ← pure (genai_GenerationConfig (lit "application/json"));
     configured ← pure (genai_GenerativeModel MODEL_NAME config);
     mret (Some configured))
    (λ e,
       emit (st_error (lit "Model Configuration Error: ") (Some e));;
       mret None).

(** [AIAnalyzer.__init__]. *)
Definition __init__ (api_key : str) : prog AIAnalyzer :=
  configured ← _configure_model api_key;
  mret {| model := configured |}.
End configure.

(** *** The prompt *)

Definition nl : str := [10%N].
Definition quoted (s : string) : str := [34%N] ++ lit s ++ [34%N].
Definition indent : str := lit "        ".
Definition indent2 : str := lit "            ".

(** The text of the f-string before [{job_desc}]. *)
Definition prompt_head : str :=
  nl ++ indent ++ lit "ROLE: Senior Technical Recruiter & AI Engineer."
  ++ nl ++ indent
  ++ lit "TASK: Analyze the Candidate CV against the Job Description."
  ++ nl ++ indent
  ++ nl ++ indent ++ lit "JOB DESCRIPTION:"
  ++ nl ++ indent.

(** The text between [{job_desc}] and [{cv_text}]. *)
Definition prompt_middle : str :=
  nl ++ indent
  ++ nl ++ indent ++ lit "CANDIDATE CV:"
  ++ nl ++ indent.

(** The text after [{cv_text}]; [{{] and [}}] are single braces. *)
Definition prompt_tail : str :=
  nl ++ indent
  ++ nl ++ indent ++ lit "OUTPUT FORMAT (JSON ONLY):"
  ++ nl ++ indent ++ lit "{"
  ++ nl ++ indent2 ++ quoted "technical_score" ++ lit ": <0-100>,"
  ++ nl ++ indent2 ++ quoted "experience_score" ++ lit ": <0-100>,"
  ++ nl ++ indent2 ++ quoted "soft_skill_score" ++ lit ": <0-100>,"
  ++ nl ++ indent2 ++ quoted "overall_average" ++ lit ": <0-100>,"
  ++ nl ++ indent2 ++ quoted "missing_keywords" ++ lit ": ["
       ++ quoted "list" ++ lit ", " ++ quoted "of" ++ lit ", "
       ++ quoted "missing" ++ lit ", " ++ quoted "tech" ++ lit ", "
       ++ quoted "keywords" ++ lit "],"
  ++ nl ++ indent2 ++ quoted "candidate_summary" ++ lit ": "
       ++ quoted "Technical summary of the candidate." ++ lit ","
  ++ nl ++ indent2 ++ quoted "interview_question" ++ lit ": "
       ++ quoted "One hard technical interview question."
  ++ nl ++ indent ++ lit "}"
  ++ nl ++ indent.

(** The f-string of [analyze]: a [str] is formatted as itself. *)
Definition prompt (job_desc cv_text : str) : str :=
  prompt_head ++ job_desc ++ prompt_middle ++ cv_text ++ prompt_tail.
Arguments prompt : simpl never.

Section analyze.
Context `{Interpreter} `{Json}.

(** [AIAnalyzer.analyze]. *)
Definition analyze (self : AIAnalyzer) (job_desc cv_text : str)
    : prog (option AnalysisResult) :=
  match model self with
  | None => mret None
  | Some generative_model =>
      let prompt := prompt job_desc cv_text in
      try_except
        (response ← call (generate_content_call prompt)
                         (generate_content generative_model prompt);
         raw ← pure (text response);
         data ← call (json_loads_call raw) (json_loads raw);
         analysis ← pure (from_dict data);
         mret (Some analysis))
        (λ e,
           emit (logger_error (lit "AI Analysis Error: ") e);;
           emit (st_error (lit "Analysis failed. Please try again.") None);;
           mret None)
  end.
End analyze.

(** ** Vocabulary of the properties *)

(** A score of the result schema is meant to lie between 0 and 100. *)
Definition in_range (z : Z) : Prop := 0 ≤ z ≤ 100.

Definition scores_in_range (r : AnalysisResult) : Prop :=
  in_range (technical_score r) ∧ in_range (experience_score r)
  ∧ in_range (soft_skill_score r) ∧ in_range (overall_average r).

(** The value [from_dict] reads for the score [key] of the mapping [d]:
    [data.get(key, 0)]. *)
Definition score_value (d : gmap str pyval) (key : string) : pyval :=
  default (PInt 0) (d !! lit key).

(** The four keys [from_dict] passes through [int()]. *)
Definition score_keys : list string :=
  ["technical_score"; "experience_score"; "soft_skill_score";
   "overall_average"]%string.

(** [int()] rejects one of the scores of [d]. *)
Definition score_rejected `{Interpreter} (d : gmap str pyval) : Prop :=
  Exists (λ key, ∃ e, int (score_value d key) = Raise e) score_keys.

(** [isinstance(v, str)]. *)
Definition is_str (v : pyval) : bool :=
  match v with
  | PStr _ => true
  | _ => false
  end.

(** What the specification expects [missing_keywords] to keep of a list:
    its entries that are strings, in order. *)
Definition strings_only (l : list pyval) : list pyval :=
  List.filter is_str l.

(** A result with another value for [missing_keywords]. *)
Definition with_keywords (v : pyval) (r : AnalysisResult) : AnalysisResult :=
  {| technical_score := technical_score r;
     experience_score := experience_score r;
     soft_skill_score := soft_skill_score r;
     overall_average := overall_average r;
     missing_keywords := v;
     candidate_summary := candidate_summary r;
     interview_question := interview_question r |}.

(** The prompts given to [generate_content], and the texts given to
    [json.loads], in the order of the calls. *)
Definition generate_calls (evs : list event) : list str :=
  omap (λ ev, match ev with
              | generate_content_call p => Some p
              | _ => None
              end) evs.

Definition json_loads_calls (evs : list event) : list str :=
  omap (λ ev, match ev with
              | json_loads_call t => Some t
              | _ => None
              end) evs.

(** What the generation capability gives for a prompt: the text of its
    response, unless the call or the reading of [response.text] raises. *)
Definition generated (m : GenerativeModel) (p : str) : result str :=
  response ← generate_content m p; text response.

(** What is shown and logged when an analysis fails with [e]. *)
Definition analysis_failure_report (e : exn) : list event :=
  [logger_error (lit "AI Analysis Error: ") e;
   st_error (lit "Analysis failed. Please try again.") None].

(** A valid document whose pages hold the given texts. *)
Definition document (texts : list str) : UploadedFile :=
  {| PdfReader := Ok ((λ t, {| page_extract_text := Ok t |}) <$> texts) |}.

Definition nonempty (s : str) : bool := negb (bool_decide (s = [])).

(** The byte stream is not a valid document: no reader can be built. *)
Definition malformed (f : UploadedFile) : Prop :=
  ∃ e, PdfReader f = Raise e.

(** A valid document with no extractable text: every page gives the
    empty string. *)
Definition empty_content (f : UploadedFile) : Prop :=
  ∃ pages, PdfReader f = Ok pages
           ∧ Forall (λ page, page_extract_text page = Ok []) pages.

(** What [extract_text] shows and logs when it returns no text. *)
Definition extraction_failure_report (f : UploadedFile) : list event :=
  match PdfReader f with
  | Raise e =>
      [logger_error (lit "PDF Processing Error: ") e;
       st_error (lit "Error reading PDF: ") (Some e)]
  | Ok _ =>
      [st_error (lit "Could not extract text. PDF might be image-based.") None]
  end.

(** The configuration of the model raises: in [genai.configure], in
    [genai.GenerationConfig] or in [genai.GenerativeModel]. *)
Definition configuration_fails `{Genai} (api_key : str) : Prop :=
  ∃ e,
    genai_configure api_key = Raise e
    ∨ genai_GenerationConfig (lit "application/json") = Raise e
    ∨ ∃ config, genai_GenerationConfig (lit "application/json") = Ok config
                ∧ genai_GenerativeModel MODEL_NAME config = Raise e.

(** ** An environment for the examples *)

(** An interpreter whose Unicode database has no space and no decimal
    digit above ASCII, with the default limit of 4300 digits.  The
    examples are ASCII text, for which [int()] does not consult the
    database ([int_of_str_ascii] below). *)
Definition ascii_interpreter : Interpreter :=
  {| _PyUnicode_IsWhitespace _ := false;
     _PyUnicode_ToDecimalDigit _ := None;
     max_str_digits := 4300 |}.

(** 70.9 as a double: 4989143962196378 * 2^-46. *)
Definition float_70_9 : spec_float :=
  S754_finite false 4989143962196378 (-46).

(** The response of the scenario of the specification, and what
    [json.loads] makes of it. *)
Definition scenario_text : str :=
  lit "{" ++ quoted "technical_score" ++ lit ": 55, "
  ++ quoted "experience_score" ++ lit ": " ++ quoted "40" ++ lit ", "
  ++ quoted "soft_skill_score" ++ lit ": 70.9, "
  ++ quoted "overall_average" ++ lit ": 88, "
  ++ quoted "missing_keywords" ++ lit ": [" ++ quoted "Go" ++ lit ", "
  ++ quoted "distributed systems" ++ lit ", 5], "
  ++ quoted "candidate_summary" ++ lit ": "
  ++ quoted "Junior-to-mid profile" ++ lit ", "
  ++ quoted "interview_question" ++ lit ": "
  ++ quoted "Explain goroutines vs threads." ++ lit "}".

Definition scenario_keywords : list pyval :=
  [PStr (lit "Go"); PStr (lit "distributed systems"); PInt 5].

Definition scenario_data : gmap str pyval :=
  list_to_map
    [(lit "technical_score", PInt 55);
     (lit "experience_score", PStr (lit "40"));
     (lit "soft_skill_score", PFloat float_70_9);
     (lit "overall_average", PInt 88);
     (lit "missing_keywords", PList scenario_keywords);
     (lit "candidate_summary", PStr (lit "Junior-to-mid profile"));
     (lit "interview_question", PStr (lit "Explain goroutines vs threads."))].

(** A response whose only anomaly is a score that is no number:
    [{"technical_score": "abc"}]. *)
Definition abc_text : str :=
  lit "{" ++ quoted "technical_score" ++ lit ": " ++ quoted "abc" ++ lit "}".

Definition abc_data : gmap str pyval :=
  {[ lit "technical_score" := PStr (lit "abc") ]}.

(** A response that is JSON but no object: [[1, 2]]. *)
Definition array_text : str := lit "[1, 2]".

(** The malformed response of the specification. *)
Definition not_valid_json : str := lit "{not valid json".

Definition JSONDecodeError : exn :=
  LibraryError
    (lit "Expecting property name enclosed in double quotes: line 1 column 2 (char 1)").

(** [json.loads] on the texts of the examples; other texts play no part
    in them. *)
Definition example_json : Json :=
  {| json_loads raw :=
       if bool_decide (raw = scenario_text) then Ok (PDict scenario_data)
       else if bool_decide (raw = abc_text) then Ok (PDict abc_data)
       else if bool_decide (raw = array_text) then Ok (PList [PInt 1; PInt 2])
       else Raise JSONDecodeError |}.

(** A model that answers every prompt with the same text, and one whose
    call fails. *)
Definition model_answering (raw : str) : GenerativeModel :=
  {| generate_content _ := Ok {| text := Ok raw |} |}.

Definition model_failing (e : exn) : GenerativeModel :=
  {| generate_content _ := Raise e |}.

(** A [genai] module that refuses the API key. *)
Definition genai_rejecting : Genai :=
  {| GenerationConfig := ();
     genai_configure _ := Raise (LibraryError (lit "API key not valid."));
     genai_GenerationConfig _ := Ok ();
     genai_GenerativeModel _ _ := Ok (model_answering []) |}.

(** The requirement and candidate texts of the scenario. *)
Definition scenario_job_desc : str :=
  lit "Senior Go engineer, 5+ years, distributed systems".
Definition scenario_cv_text : str := lit "3 years Python, some Go scripting".

(** A byte stream PyPDF2 cannot read, a scanned document of two pages
    with no text layer, and a document whose second page is blank. *)
Definition unreadable_file : UploadedFile :=
  {| PdfReader := Raise (LibraryError (lit "EOF marker not found")) |}.
Definition scanned_file : UploadedFile := document [[]; []].
Definition three_pages : list str := [lit "Ada"; []; lit "Lovelace"].

(** ** The page: [UIRenderer] and [main] *)

(** What the page needs from the interpreter besides [int()]: [str(x)]
    for an object that is no [str] (it can raise, as for an integer beyond
    the limit of digits), and the order in which a [dict] yields its keys
    (the order of insertion, which the map does not keep). *)
Class Builtins := {
  py_str : pyval → result str;
  dict_keys : gmap str pyval → list str;
}.

(** [st.progress(value)] for a float: it raises when the value is
    outside the range it accepts. *)
Class Streamlit := { st_progress_answer : spec_float → result () }.

(** An integer as a float operand, before any rounding. *)
Definition exact_float (n : Z) : spec_float :=
  match n with
  | 0 => S754_zero false
  | Z.pos p => S754_finite false p 0
  | Z.neg p => S754_finite true p 0
  end.

(** [n / 100] for an integer [n]: the quotient rounded to the nearest
    double, ties to even; [OverflowError] when it is too large for a
    float. *)
Definition true_divide_100 (n : Z) : result spec_float :=
  match SFdiv 53 1024 (exact_float n) (exact_float 100) with
  | S754_infinity _ => Raise OverflowError
  | quotient => Ok quotient
  end.

(** Where a call of streamlit is made: in one of the columns of
    [st.columns(count)], or under [st.spinner(text)]. *)
Inductive container :=
  | column (count index : nat)
  | spinner (text : str).

(** What the script does to the page, in order: the effects of the core
    functions, and the calls of streamlit made by [UIRenderer] and
    [main]. *)
Inductive ui_event :=
  | core (ev : event)
  | st_set_page_config (page_title page_icon layout : str)
  | st_warning (text : str)
  | st_stop
  | st_title (text : str)
  | st_markdown (text : str)
  | st_subheader (text : str)
  | st_text_area (label : str) (height : Z)
  | st_file_uploader (label : str) (types : list str)
  | st_button (label kind : str)
  | st_columns (n : nat)
  | st_progress (value : spec_float)
  | st_metric (label value : str)
  | st_info (text : str)
  | st_write (obj : pyval)
  | within (c : container) (ev : ui_event).

(** A computation of the page: what it did, and how it ended. *)
Record page (A : Type) := Page {
  displayed : list ui_event;
  ended : result A;
}.
Arguments Page {A} displayed ended.
Arguments displayed {A} p.
Arguments ended {A} p.

#[export] Instance page_ret : MRet page := λ A a, Page [] (Ok a).
#[export] Instance page_bind : MBind page := λ A B k p,
  match ended p with
  | Ok a => let rest := k a in
            Page (displayed p ++ displayed rest) (ended rest)
  | Raise e => Page (displayed p) (Raise e)
  end.

(** A call of streamlit that returns nothing the script uses. *)
Definition show (ev : ui_event) : page () := Page [ev] (Ok ()).

(** A call of streamlit that may raise: the call is recorded, then it
    returns or raises. *)
Definition attempt {A} (ev : ui_event) (r : result A) : page A := Page [ev] r.

(** A call of a core function. *)
Definition run {A} (p : prog A) : page A :=
  Page (core <$> events p) (outcome p).

(** An evaluation that shows nothing. *)
Definition evaluate {A} (r : result A) : page A := Page [] r.

(** [with c: body], for a column or a spinner. *)
Definition inside {A} (c : container) (body : page A) : page A :=
  Page (within c <$> displayed body) (ended body).

(** [AppConfig.PAGE_TITLE], [PAGE_ICON], [LAYOUT]. *)
Definition PAGE_TITLE : str := lit "Semantic CV Analyzer".
Definition PAGE_ICON : str := [128270%N].
Definition LAYOUT : str := lit "wide".

Section UIRenderer.
Context `{Builtins} `{Streamlit}.

(** [format(x, "")], the way an f-string formats a field: a [str] is
    itself, another object is its [str(x)]. *)
Definition format (x : pyval) : result str :=
  match x with
  | PStr s => Ok s
  | PNone | PBool _ | PInt _ | PFloat _ | PList _ | PDict _ => py_str x
  end.

(** [iter(x)], what a [for] loop goes through: the entries of a list,
    the characters of a string, the keys of a dict; the other values are
    not iterable. *)
Definition iterate (x : pyval) : result (list pyval) :=
  match x with
  | PList l => Ok l
  | PStr s => Ok ((λ ch, PStr [ch]) <$> s)
  | PDict d => Ok (PStr <$> dict_keys d)
  | PNone | PBool _ | PInt _ | PFloat _ => Raise TypeError
  end.

(** [UIRenderer.render_header]. *)
Definition render_header : page () :=
  show (st_title ([128270%N] ++ lit " Semantic CV Analyzer"));;
  show (st_markdown []);;
  show (st_markdown (lit "---")).

(** [f"{score}%"]. *)
Definition percent (score : Z) : result str :=
  formatted ← format (PInt score); mret (formatted ++ lit "%").

(** The loop [for k in ...: st.write(f"- {k}")] over the objects left. *)
Fixpoint write_keywords (keywords : list pyval) : page () :=
  match keywords with
  | [] => mret ()
  | k :: rest =>
      formatted ← evaluate (format k);
      show (st_write (PStr (lit "- " ++ formatted)));;
      write_keywords rest
  end.

(** [UIRenderer.render_results]. *)
Definition render_results (res : AnalysisResult) : page () :=
  show (st_markdown (lit "---"));;
  overall ← evaluate (percent (overall_average res));
  show (st_subheader (lit "Overall Match: " ++ overall));;
  value ← evaluate (true_divide_100 (overall_average res));
  attempt (st_progress value) (st_progress_answer value);;
  show (st_columns 3);;
  technical ← evaluate (percent (technical_score res));
  inside (column 3 0)
    (show (st_metric ([128736%N] ++ lit " Technical") technical));;
  experience ← evaluate (percent (experience_score res));
  inside (column 3 1)
    (show (st_metric ([128197%N] ++ lit " Experience") experience));;
  soft_skill ← evaluate (percent (soft_skill_score res));
  inside (column 3 2)
    (show (st_metric ([129504%N] ++ lit " Soft Skills") soft_skill));;
  show (st_markdown (lit "---"));;
  show (st_columns 2);;
  inside (column 2 0)
    (run (emit (st_error ([128680%N] ++ lit " Missing Keywords") None));;
     keywords ← evaluate (iterate (missing_keywords res));
     write_keywords keywords);;
  inside (column 2 1)
    (show (st_info ([128161%N] ++ lit " Analysis Summary"));;
     show (st_write (candidate_summary res));;
     question ← evaluate (format (interview_question res));
     show (st_write (PStr (lit "**Question:** *" ++ question ++ lit "*")))).
End UIRenderer.

(** What the script is given in one run: the secret [google_api_key] of
    [st.secrets] (a string, or absent, or a lookup that raises), the
    variable [GOOGLE_API_KEY] of the environment, the text of the text
    area, the file of the uploader, and whether the button was pressed.
    An uploaded file is truthy, as any object with neither [__bool__] nor
    [__len__]. *)
Record Session := {
  secret : result (option str);
  getenv : option str;
  text_area : str;
  file_uploader : option UploadedFile;
  button : bool;
}.

(** [UIRenderer.render_inputs]. *)
Definition render_inputs (session : Session) : page (str * option UploadedFile) :=
  show (st_columns 2);;
  jd ← inside (column 2 0)
         (show (st_subheader ([128203%N] ++ lit " Job Description"));;
          show (st_text_area (lit "Paste JD here:") 300);;
          mret (text_area session));
  cv ← inside (column 2 1)
         (show (st_subheader ([128196%N] ++ lit " Candidate CV"));;
          show (st_file_uploader (lit "Upload PDF") [lit "pdf"]);;
          mret (file_uploader session));
  mret (jd, cv).

Section main.
Context `{Interpreter} `{Json} `{Genai} `{Builtins} `{Streamlit}.

(** The body of [with st.spinner(...)]: extraction, then a new analyzer
    and its analysis when there is a text, then the results when there
    is a result. *)
Definition analysis (api_key jd : str) (cv : UploadedFile) : page () :=
  text ← run (extract_text cv);
  match text with
  | Some text =>
      if truthy (PStr text) then
        analyzer ← run (__init__ api_key);
        result ← run (analyze analyzer jd text);
        match result with
        | Some result => render_results result
        | None => mret ()
        end
      else mret ()
  | None => mret ()
  end.

(** What [main] does once it has an API key. *)
Definition serve (api_key : str) (session : Session) : page () :=
  render_header;;
  inputs ← render_inputs session;
  let '(jd, cv) := inputs in
  show (st_button (lit "Run Semantic Analysis " ++ [128640%N]) (lit "primary"));;
  if button session then
    match (if truthy (PStr jd) then cv else None) with
    | Some cv =>
        inside (spinner (lit "Analyzing semantics...")) (analysis api_key jd cv)
    | None =>
        show (st_warning (lit "Please provide both Job Description and CV."))
    end
  else mret ().

(** [st.warning(...); st.stop()]: [st.stop()] ends the script, nothing
    of [main] runs after it. *)
Definition stop_without_key : page () :=
  show (st_warning
          ([9888%N; 65039%N]
           ++ lit " API Key missing. Please configure secrets.toml"));;
  show st_stop.

(** [main]: the key is the secret when [st.secrets] has one, the
    variable of the environment otherwise. *)
Definition main (session : Session) : page () :=
  show (st_set_page_config PAGE_TITLE PAGE_ICON LAYOUT);;
  found ← evaluate (secret session);
  let api_key :=
    match found with
    | Some key => Some key
    | None => getenv session
    end in
  match api_key with
  | Some key => if truthy (PStr key) then serve key session
                else stop_without_key
  | None => stop_without_key
  end.
End main.

(** The effects of the core functions among the calls of a page. *)
Fixpoint core_of (ev : ui_event) : list event :=
  match ev with
  | core ev => [ev]
  | within _ ev => core_of ev
  | _ => []
  end.

Definition core_events (evs : list ui_event) : list event :=
  ev ← evs; core_of ev.

(** A call without the containers it is made in. *)
Fixpoint call_of (ev : ui_event) : ui_event :=
  match ev with
  | within _ ev => call_of ev
  | _ => ev
  end.

(** The objects given to [st.write], in order. *)
Definition written (evs : list ui_event) : list pyval :=
  omap (λ ev, match call_of ev with
              | st_write obj => Some obj
              | _ => None
              end) evs.

(** The API key [main] works with, if any: the secret when there is one,
    even empty, the variable of the environment otherwise. *)
Definition api_key_of (session : Session) : result (option str) :=
  found ← secret session;
  mret (match found with
        | Some key => Some key
        | None => getenv session
        end).

(** A value a [for] loop cannot go through. *)
Definition not_iterable (v : pyval) : Prop :=
  match v with
  | PNone | PBool _ | PInt _ | PFloat _ => True
  | PStr _ | PList _ | PDict _ => False
  end.

(** The four scores of a result can be formatted, the overall score
    divided by 100 is a float, and the progress bar accepts it. *)
Definition scores_display `{Builtins} `{Streamlit} (res : AnalysisResult) : Prop :=
  (∃ s, py_str (PInt (overall_average res)) = Ok s)
  ∧ (∃ s, py_str (PInt (technical_score res)) = Ok s)
  ∧ (∃ s, py_str (PInt (experience_score res)) = Ok s)
  ∧ (∃ s, py_str (PInt (soft_skill_score res)) = Ok s)
  ∧ ∃ value, true_divide_100 (overall_average res) = Ok value
             ∧ st_progress_answer value = Ok ().

(** *** An environment for the examples of the page *)

(** [str(x)] for the integers, the booleans and [None]; the other
    objects play no part in the examples.  The keys of a dict in the
    order of the map. *)
Definition example_builtins : Builtins :=
  {| py_str x :=
       match x with
       | PInt z => Ok (lit (NilZero.string_of_int (Z.to_int z)))
       | PBool b => Ok (lit (if b then "True" else "False"))
       | PNone => Ok (lit "None")
       | PFloat _ | PStr _ | PList _ | PDict _ =>
           Raise (LibraryError (lit "not an object of the examples"))
       end;
     dict_keys d := (map_to_list d).*1 |}.

(** 1.0 as a double. *)
Definition float_one : spec_float := S754_finite false 4503599627370496 (-52).

(** A progress bar that accepts the floats from 0.0 to 1.0. *)
Definition example_streamlit : Streamlit :=
  {| st_progress_answer value :=
       if SFleb (S754_zero false) value && SFleb value float_one then Ok ()
       else Raise (LibraryError (lit "Progress Value has invalid value")) |}.

(** A [genai] module that accepts the key and builds the model [m]. *)
Definition genai_building (m : GenerativeModel) : Genai :=
  {| GenerationConfig := ();
     genai_configure _ := Ok ();
     genai_GenerationConfig _ := Ok ();
     genai_GenerativeModel _ _ := Ok m |}.

(** A result as the prompt asks for it. *)
Definition scenario_result : AnalysisResult :=
  {| technical_score := 55;
     experience_score := 40;
     soft_skill_score := 70;
     overall_average := 88;
     missing_keywords := PList [PStr (lit "Go"); PStr (lit "Kafka")];
     candidate_summary := PStr (lit "Junior-to-mid profile");
     interview_question := PStr (lit "Explain goroutines vs threads.") |}.

(** What [from_dict] makes of [{"overall_average": 150}]. *)
Definition unclamped_result : AnalysisResult :=
  {| technical_score := 0;
     experience_score := 0;
     soft_skill_score := 0;
     overall_average := 150;
     missing_keywords := PList [];
     candidate_summary := PStr (lit "N/A");
     interview_question := PStr (lit "N/A") |}.

(** A result whose overall score is 10^311. *)
Definition too_large_result : AnalysisResult :=
  {| technical_score := 0;
     experience_score := 0;
     soft_skill_score := 0;
     overall_average := 10 ^ 311;
     missing_keywords := PList [];
     candidate_summary := PStr (lit "N/A");
     interview_question := PStr (lit "N/A") |}.

(** A run of the script: the candidate text of the scenario as a
    document of one page, the button pressed. *)
Definition scenario_session : Session :=
  {| secret := Ok (Some (lit "a-key"));
     getenv := None;
     text_area := scenario_job_desc;
     file_uploader := Some (document [scenario_cv_text]);
     button := true |}.

(** A response with no list of keywords, [{"missing_keywords": null}],
    a decoder for it, and a run in which the model gives it. *)
Definition null_keywords_text : str :=
  lit "{" ++ quoted "missing_keywords" ++ lit ": null}".

Definition null_keywords_json : Json :=
  {| json_loads raw :=
       if bool_decide (raw = null_keywords_text)
       then Ok (PDict {[ lit "missing_keywords" := PNone ]})
       else Raise JSONDecodeError |}.

(** A run with an empty secret and a key in the environment. *)
Definition empty_secret_session : Session :=
  {| secret := Ok (Some []);
     getenv := Some (lit "a-key");
     text_area := scenario_job_desc;
     file_uploader := Some (document [scenario_cv_text]);
     button := true |}.

(** ** Vocabulary of the further properties *)

(** The seven keys [from_dict] reads. *)
Definition read_keys : list string :=
  score_keys
  ++ ["missing_keywords"; "candidate_summary"; "interview_question"]%string.

Definition is_st_error (ev : event) : bool :=
  match ev with
  | st_error _ _ => true
  | _ => false
  end.

Definition is_logger_error (ev : event) : bool :=
  match ev with
  | logger_error _ _ => true
  | _ => false
  end.

(** What a run showed to the user with [st.error], and what it wrote to
    the log with [logger.error]. *)
Definition shown_errors (evs : list event) : list event :=
  List.filter is_st_error evs.
Definition logged_errors (evs : list event) : list event :=
  List.filter is_logger_error evs.

(** A page whose extraction raises. *)
Definition page_raising (e : exn) : PageObject :=
  {| page_extract_text := Raise e |}.

(** Case analysis on what [int()] makes of each score in the goal, in
    the order [from_dict] evaluates them. *)
Ltac case_scores :=
  repeat match goal with
    | |- context [int (score_value ?d ?key)] =>
        destruct (int (score_value d key)) eqn:?;
        cbn [mbind result_bind fmap result_fmap]
    end.

(** * Properties *)

(** ** The built-in [int()] *)

(** On an ASCII string [int()] does not consult the Unicode database. *)
Lemma int_of_str_ascii (I1 I2 : Interpreter) (s : str) :
  @max_str_digits I1 = @max_str_digits I2 →
  forallb (λ ch, (ch <? 128)%N) s = true →
  @int_of_str I1 s = @int_of_str I2 s.
Proof.
  intros Hmax Hascii.
  unfold int_of_str, transform_decimal_and_space_to_ascii.
  rewrite Hascii. unfold long_from_string. by rewrite Hmax.
Qed.

(** [int()] accepts every [int] and every [bool], and truncates a finite
    [float] towards zero. *)
Lemma int_of_float_finite `{Interpreter} (negative : bool) (m : positive) (e : Z) :
  int (PFloat (S754_finite negative m e))
  = Ok (Z.quot ((if negative then -1 else 1) * Z.pos m * 2 ^ Z.max e 0)
               (2 ^ Z.max (- e) 0)).
Proof.
  cbn. f_equal.
  destruct (Z.le_gt_cases 0 e) as [He|He].
  - rewrite Z.shiftl_mul_pow2 by done.
    rewrite (Z.max_l e 0), (Z.max_r (- e) 0) by lia.
    rewrite Z.quot_1_r. destruct negative; lia.
  - rewrite Z.shiftl_div_pow2 by lia.
    rewrite (Z.max_r e 0), (Z.max_l (- e) 0) by lia.
    rewrite Z.mul_1_r.
    assert (0 < 2 ^ (- e)) by (apply Z.pow_pos_nonneg; lia).
    destruct negative.
    + replace (-1 * Z.pos m) with (- Z.pos m) by lia.
      rewrite Z.quot_opp_l by lia.
      rewrite Z.quot_div_nonneg by lia. done.
    + rewrite Z.mul_1_l. rewrite Z.quot_div_nonneg by lia. done.
Qed.

(** What [int()] accepts among the values of a decoded response: every
    [int] and [bool], the finite floats, and the strings that hold a
    decimal integer literal. *)
Lemma int_accepts `{Interpreter} (v : pyval) :
  (∃ z, int v = Ok z)
  ↔ match v with
    | PInt _ | PBool _ => True
    | PFloat f => f ≠ S754_nan ∧ ∀ negative, f ≠ S754_infinity negative
    | PStr s => ∃ z, int_of_str s = Ok z
    | PNone | PList _ | PDict _ => False
    end.
Proof.
  destruct v as [|b|z|f|s|l|d]; cbn; try (split; [by intros [? ?]|done]).
  - split; [done|]. by eexists.
  - split; [done|]. by eexists.
  - destruct f as [negative|negative| |negative m e]; cbn.
    + split; [done|]. by eexists.
    + split; [by intros [? ?]|]. intros [_ Hinf]. by destruct (Hinf negative).
    + split; [by intros [? ?]|]. by intros [? _].
    + split; [done|]. by eexists.
  - done.
Qed.

(** ** [AnalysisResult.from_dict] *)

(** [from_dict] on a mapping, score by score. *)
Lemma from_dict_unfold `{Interpreter} (d : gmap str pyval) :
  from_dict (PDict d)
  = (technical ← int (score_value d "technical_score");
     experience ← int (score_value d "experience_score");
     soft_skill ← int (score_value d "soft_skill_score");
     overall ← int (score_value d "overall_average");
     mret {| technical_score := technical;
             experience_score := experience;
             soft_skill_score := soft_skill;
             overall_average := overall;
             missing_keywords :=
               default (PList []) (d !! lit "missing_keywords");
             candidate_summary :=
               default (PStr (lit "N/A")) (d !! lit "candidate_summary");
             interview_question :=
               default (PStr (lit "N/A")) (d !! lit "interview_question") |}).
Proof. reflexivity. Qed.

(** Removing another key leaves a score as it is. *)
Lemma score_value_delete (d : gmap str pyval) (other key : string) :
  lit other ≠ lit key →
  score_value (delete (lit other) d) key = score_value d key.
Proof. intros Hne. unfold score_value. by rewrite lookup_delete_ne. Qed.

(** [from_dict] returns when [int()] accepts the four scores, with the
    integers [int()] gives. *)
Lemma from_dict_accepted `{Interpreter} (d : gmap str pyval) (zt ze zs zo : Z) :
  int (score_value d "technical_score") = Ok zt →
  int (score_value d "experience_score") = Ok ze →
  int (score_value d "soft_skill_score") = Ok zs →
  int (score_value d "overall_average") = Ok zo →
  from_dict (PDict d)
  = Ok {| technical_score := zt;
          experience_score := ze;
          soft_skill_score := zs;
          overall_average := zo;
          missing_keywords := default (PList []) (d !! lit "missing_keywords");
          candidate_summary :=
            default (PStr (lit "N/A")) (d !! lit "candidate_summary");
          interview_question :=
            default (PStr (lit "N/A")) (d !! lit "interview_question") |}.
Proof.
  intros Ht He Hs Ho. rewrite from_dict_unfold, Ht, He, Hs, Ho. reflexivity.
Qed.

(** [from_dict] raises when [int()] rejects one of the four scores. *)
Lemma from_dict_rejected `{Interpreter} (d : gmap str pyval) :
  score_rejected d → ∃ e, from_dict (PDict d) = Raise e.
Proof.
  intros Hrej. rewrite from_dict_unfold. case_scores; try by eexists.
  exfalso. unfold score_rejected, score_keys in Hrej.
  repeat (apply Exists_cons in Hrej as [[e Hrej]|Hrej]; [congruence|]).
  by apply Exists_nil in Hrej.
Qed.

(** C1, as amended.  For every mapping in which [int()] accepts the value
    of each of the four score keys (0 standing for an absent key),
    [from_dict] returns a result without failing, whatever the other keys
    hold; every numeric field of the result is the integer [int()] gives
    for its key.  Nothing is clamped: the fields are in [0,100] exactly
    when those integers are. *)
Theorem from_dict_scores `{Interpreter} (d : gmap str pyval) (zt ze zs zo : Z) :
  int (score_value d "technical_score") = Ok zt →
  int (score_value d "experience_score") = Ok ze →
  int (score_value d "soft_skill_score") = Ok zs →
  int (score_value d "overall_average") = Ok zo →
  ∃ r, from_dict (PDict d) = Ok r
       ∧ technical_score r = zt ∧ experience_score r = ze
       ∧ soft_skill_score r = zs ∧ overall_average r = zo
       ∧ (scores_in_range r
          ↔ in_range zt ∧ in_range ze ∧ in_range zs ∧ in_range zo).
Proof.
  intros Ht He Hs Ho.
  eexists. split; [by apply from_dict_accepted|].
  unfold scores_in_range. cbn. tauto.
Qed.

(** The scenario of the specification: a string holding an integer and a
    float are accepted, and the four scores are in range. *)
Lemma from_dict_scores_witness :
  ∃ r, @from_dict ascii_interpreter (PDict scenario_data) = Ok r
       ∧ technical_score r = 55 ∧ experience_score r = 40
       ∧ soft_skill_score r = 70 ∧ overall_average r = 88
       ∧ (scores_in_range r
          ↔ in_range 55 ∧ in_range 40 ∧ in_range 70 ∧ in_range 88).
Proof.
  apply (@from_dict_scores ascii_interpreter scenario_data 55 40 70 88);
    vm_compute; reflexivity.
Defined.

(** C1, as stated, fails, whatever the interpreter: a score of 150 is kept
    as 150, and a score that is [None] makes [from_dict] raise
    [TypeError]. *)
Lemma from_dict_not_total_not_clamped :
  (∀ I : Interpreter,
     ∃ r, @from_dict I (PDict {[ lit "technical_score" := PInt 150 ]}) = Ok r
          ∧ technical_score r = 150 ∧ ¬ scores_in_range r)
  ∧ (∀ I : Interpreter,
       @from_dict I (PDict {[ lit "technical_score" := PNone ]})
       = Raise TypeError).
Proof.
  split; intros I.
  - eexists. split; [vm_compute; reflexivity|]. split; [reflexivity|].
    unfold scores_in_range, in_range. cbn. lia.
  - vm_compute. reflexivity.
Qed.

(** ** [AIAnalyzer.analyze] *)

(** The runs of [analyze] with a configured model: the generation fails,
    the decoding fails, the construction of the result fails, or a result
    is returned. *)
Lemma analyze_unfold `{Interpreter} `{Json} (m : GenerativeModel) (jd cv : str) :
  analyze {| model := Some m |} jd cv
  = match generated m (prompt jd cv) with
    | Raise e =>
        Prog (generate_content_call (prompt jd cv)
              :: analysis_failure_report e) (Ok None)
    | Ok raw =>
        match json_loads raw ≫= from_dict with
        | Raise e =>
            Prog (generate_content_call (prompt jd cv)
                  :: json_loads_call raw :: analysis_failure_report e)
                 (Ok None)
        | Ok r =>
            Prog [generate_content_call (prompt jd cv); json_loads_call raw]
                 (Ok (Some r))
        end
    end.
Proof.
  unfold analyze, generated. cbn.
  destruct (generate_content m (prompt jd cv)) as [[[raw|e]]|e]; cbn;
    try reflexivity.
  destruct (json_loads raw) as [data|e]; cbn; [|reflexivity].
  destruct (from_dict data) as [r|e]; reflexivity.
Qed.

(** A decoded value that is no [dict] has no [get]. *)
Lemma from_dict_not_dict `{Interpreter} (v : pyval) :
  (∀ d, v ≠ PDict d) → from_dict v = Raise AttributeError.
Proof. intros Hv. destruct v; try reflexivity. by destruct (Hv d). Qed.

(** C2, as amended.  For every response that parses successfully as a
    JSON object, [analyze] returns a result exactly when [int()] accepts
    the four scores of the object: the numeric fields are then the
    integers [int()] gives (a float truncated, a decimal string parsed, an
    out-of-range integer kept as it is), and the other fields are read
    with their defaults.  When [int()] rejects a score, nothing falls back
    to 0: the exception is caught, logged and reported, and [analyze]
    returns [None]. *)
Theorem analyze_parsed_object `{Interpreter} `{Json}
    (m : GenerativeModel) (jd cv raw : str) (d : gmap str pyval) :
  generated m (prompt jd cv) = Ok raw →
  json_loads raw = Ok (PDict d) →
  (∀ zt ze zs zo,
     int (score_value d "technical_score") = Ok zt →
     int (score_value d "experience_score") = Ok ze →
     int (score_value d "soft_skill_score") = Ok zs →
     int (score_value d "overall_average") = Ok zo →
     analyze {| model := Some m |} jd cv
     = Prog [generate_content_call (prompt jd cv); json_loads_call raw]
         (Ok (Some
            {| technical_score := zt;
               experience_score := ze;
               soft_skill_score := zs;
               overall_average := zo;
               missing_keywords :=
                 default (PList []) (d !! lit "missing_keywords");
               candidate_summary :=
                 default (PStr (lit "N/A")) (d !! lit "candidate_summary");
               interview_question :=
                 default (PStr (lit "N/A")) (d !! lit "interview_question")
            |})))
  ∧ (score_rejected d →
     ∃ e, analyze {| model := Some m |} jd cv
          = Prog (generate_content_call (prompt jd cv)
                  :: json_loads_call raw :: analysis_failure_report e)
              (Ok None)).
Proof.
  intros Hgen Hloads. rewrite analyze_unfold, Hgen, Hloads.
  change (Ok (PDict d) ≫= from_dict) with (from_dict (PDict d)). split.
  - intros zt ze zs zo Ht He Hs Ho.
    by rewrite (from_dict_accepted d zt ze zs zo).
  - intros Hrej. destruct (from_dict_rejected d Hrej) as [e ->]. by exists e.
Qed.

(** The scenario of the specification: the string ["40"] is parsed, 70.9
    is truncated to 70, and the keyword 5 stays in the list. *)
Lemma analyze_parsed_object_witness :
  @analyze ascii_interpreter example_json
    {| model := Some (model_answering scenario_text) |}
    scenario_job_desc scenario_cv_text
  = Prog [generate_content_call (prompt scenario_job_desc scenario_cv_text);
          json_loads_call scenario_text]
      (Ok (Some
         {| technical_score := 55;
            experience_score := 40;
            soft_skill_score := 70;
            overall_average := 88;
            missing_keywords := PList scenario_keywords;
            candidate_summary := PStr (lit "Junior-to-mid profile");
            interview_question := PStr (lit "Explain goroutines vs threads.")
         |})).
Proof.
  destruct (@analyze_parsed_object ascii_interpreter example_json
              (model_answering scenario_text)
              scenario_job_desc scenario_cv_text scenario_text scenario_data)
    as [Haccepted _]; [reflexivity | vm_compute; reflexivity |].
  rewrite (Haccepted 55 40 70 88); [|vm_compute; reflexivity ..].
  vm_compute. reflexivity.
Defined.

(** C2, as stated, fails: the response [{"technical_score": "abc"}] parses
    as a JSON object, and [analyze] returns [None] after reporting the
    [ValueError] of [int("abc")]. *)
Lemma analyze_surfaces_rejected_score :
  @json_loads example_json abc_text = Ok (PDict abc_data)
  ∧ @analyze ascii_interpreter example_json
      {| model := Some (model_answering abc_text) |}
      scenario_job_desc scenario_cv_text
    = Prog (generate_content_call (prompt scenario_job_desc scenario_cv_text)
            :: json_loads_call abc_text
            :: analysis_failure_report ValueError)
        (Ok None).
Proof. split; vm_compute; reflexivity. Qed.

(** C3, as amended.  For every mapping whose [missing_keywords] value is
    a list, [from_dict] keeps that list as it is, every entry in order,
    string or not; and the list never causes the construction to fail:
    [from_dict] returns or raises as it does on the mapping without that
    key. *)
Theorem from_dict_keeps_missing_keywords `{Interpreter}
    (d : gmap str pyval) (l : list pyval) :
  d !! lit "missing_keywords" = Some (PList l) →
  from_dict (PDict d)
  = with_keywords (PList l)
      <$> from_dict (PDict (delete (lit "missing_keywords") d)).
Proof.
  intros Hl. rewrite !from_dict_unfold.
  rewrite !score_value_delete
    by (intros Hkey; vm_compute in Hkey; discriminate Hkey).
  rewrite lookup_delete_eq.
  rewrite !lookup_delete_ne
    by (intros Hkey; vm_compute in Hkey; discriminate Hkey).
  rewrite Hl. by case_scores.
Qed.

(** The list of the scenario keeps its third entry, the integer 5. *)
Lemma from_dict_keeps_missing_keywords_witness :
  missing_keywords <$> @from_dict ascii_interpreter (PDict scenario_data)
  = Ok (PList [PStr (lit "Go"); PStr (lit "distributed systems"); PInt 5]).
Proof.
  rewrite (@from_dict_keeps_missing_keywords ascii_interpreter
             scenario_data scenario_keywords);
    vm_compute; reflexivity.
Defined.

(** C3, as stated, fails, whatever the interpreter: from the list
    [["Go", "distributed systems", 5]] the result keeps the entry 5, which
    is not a string. *)
Lemma from_dict_keeps_non_strings :
  (∀ I : Interpreter,
     missing_keywords
       <$> @from_dict I
             (PDict {[ lit "missing_keywords" := PList scenario_keywords ]})
     = Ok (PList scenario_keywords))
  ∧ strings_only scenario_keywords
    = [PStr (lit "Go"); PStr (lit "distributed systems")]
  ∧ PList scenario_keywords ≠ PList (strings_only scenario_keywords).
Proof.
  split; [|split].
  - intros I. vm_compute. reflexivity.
  - reflexivity.
  - intros Heq. vm_compute in Heq. discriminate Heq.
Qed.

(** C4.  When the generation call fails, or when the text it returns
    does not parse as a JSON object (the decoder raises, or the decoded
    value is no object), [analyze] returns [None], its report of a failed
    analysis, and raises nothing.  The text is given to the decoder at
    most once: not at all when the generation failed, once otherwise. *)
Theorem analyze_generation_failed `{Interpreter} `{Json}
    (m : GenerativeModel) (jd cv : str) :
  (∃ e, generated m (prompt jd cv) = Raise e)
  ∨ (∃ raw, generated m (prompt jd cv) = Ok raw
            ∧ ∀ d, json_loads raw ≠ Ok (PDict d)) →
  outcome (analyze {| model := Some m |} jd cv) = Ok None
  ∧ json_loads_calls (events (analyze {| model := Some m |} jd cv))
    = match generated m (prompt jd cv) with
      | Ok raw => [raw]
      | Raise _ => []
      end
  ∧ ∃ e before,
      events (analyze {| model := Some m |} jd cv)
      = before ++ analysis_failure_report e.
Proof.
  intros [[e Hgen]|[raw [Hgen Hloads]]]; rewrite analyze_unfold, Hgen.
  - repeat split. by exists e, [generate_content_call (prompt jd cv)].
  - assert (∃ e, json_loads raw ≫= from_dict = Raise e) as [e ->].
    { destruct (json_loads raw) as [v|e] eqn:Hv; [|by exists e].
      exists AttributeError. apply from_dict_not_dict.
      intros d ->. by apply (Hloads d). }
    repeat split.
    by exists e, [generate_content_call (prompt jd cv); json_loads_call raw].
Qed.

(** The malformed response of the specification, a response that is a
    JSON array, and a generation call that fails. *)
Lemma analyze_generation_failed_witness :
  (outcome (@analyze ascii_interpreter example_json
              {| model := Some (model_answering not_valid_json) |}
              scenario_job_desc scenario_cv_text) = Ok None
   ∧ json_loads_calls
       (events (@analyze ascii_interpreter example_json
                  {| model := Some (model_answering not_valid_json) |}
                  scenario_job_desc scenario_cv_text))
     = [not_valid_json])
  ∧ outcome (@analyze ascii_interpreter example_json
               {| model := Some (model_answering array_text) |}
               scenario_job_desc scenario_cv_text) = Ok None
  ∧ outcome (@analyze ascii_interpreter example_json
               {| model := Some (model_failing (LibraryError (lit "503"))) |}
               scenario_job_desc scenario_cv_text) = Ok None.
Proof.
  split; [|split].
  - destruct (@analyze_generation_failed ascii_interpreter example_json
                (model_answering not_valid_json)
                scenario_job_desc scenario_cv_text) as (Hout & Hcalls & _).
    + right. exists not_valid_json. split; [reflexivity|].
      intros d Hd. vm_compute in Hd. discriminate Hd.
    + split; [exact Hout | exact Hcalls].
  - apply (@analyze_generation_failed ascii_interpreter example_json
             (model_answering array_text)).
    right. exists array_text. split; [reflexivity|].
    intros d Hd. vm_compute in Hd. discriminate Hd.
  - apply (@analyze_generation_failed ascii_interpreter example_json
             (model_failing (LibraryError (lit "503")))).
    left. eexists. reflexivity.
Defined.

(** ** The prompt *)

Lemma prompt_contains_job_desc (jd cv : str) : substring jd (prompt jd cv).
Proof. by exists prompt_head, (prompt_middle ++ cv ++ prompt_tail). Qed.

Lemma prompt_contains_cv_text (jd cv : str) : substring cv (prompt jd cv).
Proof.
  exists (prompt_head ++ jd ++ prompt_middle), prompt_tail.
  unfold prompt. by rewrite <- !app_assoc.
Qed.

(** With a configured model, [generate_content] is called once, with the
    prompt. *)
Lemma analyze_generate_calls `{Interpreter} `{Json}
    (m : GenerativeModel) (jd cv : str) :
  generate_calls (events (analyze {| model := Some m |} jd cv))
  = [prompt jd cv].
Proof.
  rewrite analyze_unfold.
  destruct (generated m (prompt jd cv)) as [raw|e]; [|reflexivity].
  destruct (json_loads raw ≫= from_dict); reflexivity.
Qed.

(** C6.  For every requirement text and candidate text, a call of
    [analyze] on an analyzer with a configured model calls
    [generate_content] exactly once, and the prompt of that call contains
    both texts as they are. *)
Theorem analyze_generates_once `{Interpreter} `{Json}
    (m : GenerativeModel) (jd cv : str) :
  ∃ p, generate_calls (events (analyze {| model := Some m |} jd cv)) = [p]
       ∧ substring jd p ∧ substring cv p.
Proof.
  exists (prompt jd cv). split; [apply analyze_generate_calls|].
  split; [apply prompt_contains_job_desc | apply prompt_contains_cv_text].
Qed.

(** C8.  The prompt is a function of the requirement text and the
    candidate text alone: whatever the interpreter, the decoder and the
    model, [analyze] sends the same prompt, the fixed text of the f-string
    around the two strings.  It is defined for all strings; for two empty
    strings it is the fixed text, and nothing of a string is cut or
    added. *)
Theorem prompt_deterministic (I1 I2 : Interpreter) (J1 J2 : Json)
    (m1 m2 : GenerativeModel) (jd cv : str) :
  generate_calls (events (@analyze I1 J1 {| model := Some m1 |} jd cv))
  = generate_calls (events (@analyze I2 J2 {| model := Some m2 |} jd cv))
  ∧ generate_calls (events (@analyze I1 J1 {| model := Some m1 |} jd cv))
    = [prompt_head ++ jd ++ prompt_middle ++ cv ++ prompt_tail]
  ∧ prompt [] [] = prompt_head ++ prompt_middle ++ prompt_tail
  ∧ length (prompt jd cv)
    = (length (prompt [] []) + length jd + length cv)%nat.
Proof.
  rewrite !analyze_generate_calls. repeat split.
  unfold prompt. rewrite !length_app. cbn [length]. lia.
Qed.

(** ** [AIAnalyzer.__init__] *)

(** A configuration that raises leaves the analyzer without a model. *)
Lemma configure_model_fails `{Genai} (api_key : str) :
  configuration_fails api_key →
  ∃ e, _configure_model api_key
       = Prog [st_error (lit "Model Configuration Error: ") (Some e)]
           (Ok None).
Proof.
  intros [e Hfail]. unfold _configure_model. cbn.
  destruct (genai_configure api_key) as [[]|e1] eqn:Hconfigure; cbn;
    [|by exists e1].
  destruct (genai_GenerationConfig (lit "application/json"))
    as [config|e2] eqn:Hconfig; cbn; [|by exists e2].
  destruct (genai_GenerativeModel MODEL_NAME config)
    as [configured|e3] eqn:Hmodel; cbn; [|by exists e3].
  exfalso. destruct Hfail as [Hfail|[Hfail|(config' & Hconfig' & Hfail)]];
    congruence.
Qed.

(** C10.  When the configuration of the model fails at construction, the
    analyzer is built with no model, and every call of [analyze] on it
    returns [None] at once: no call of [generate_content], and no other
    effect. *)
Theorem analyze_without_model `{Genai} `{Interpreter} `{Json} (api_key : str) :
  configuration_fails api_key →
  ∃ self, outcome (__init__ api_key) = Ok self
          ∧ model self = None
          ∧ ∀ jd cv,
              analyze self jd cv = Prog [] (Ok None)
              ∧ generate_calls (events (analyze self jd cv)) = [].
Proof.
  intros Hfail. destruct (configure_model_fails api_key Hfail) as [e He].
  exists {| model := None |}. unfold __init__. rewrite He. by repeat split.
Qed.

(** A [genai] module that refuses the key: the analyzer has no model. *)
Lemma analyze_without_model_witness :
  ∃ self, outcome (@__init__ genai_rejecting (lit "not-a-key")) = Ok self
          ∧ model self = None
          ∧ ∀ jd cv,
              @analyze ascii_interpreter example_json self jd cv
              = Prog [] (Ok None)
              ∧ generate_calls
                  (events (@analyze ascii_interpreter example_json self jd cv))
                = [].
Proof.
  apply (@analyze_without_model genai_rejecting ascii_interpreter example_json).
  exists (LibraryError (lit "API key not valid.")). left. reflexivity.
Defined.

(** ** [PDFProcessor.extract_text] *)

(** A file whose reader and pages raise nothing is the document of the
    texts of its pages. *)
Lemma valid_document (f : UploadedFile) (pages : list PageObject)
    (texts : list str) :
  PdfReader f = Ok pages →
  page_extract_text <$> pages = Ok <$> texts →
  f = document texts.
Proof.
  destruct f as [reader]. cbn. intros -> Hpages. unfold document. do 2 f_equal.
  revert texts Hpages.
  induction pages as [|[extracted] pages IH]; intros [|t texts] Hpages;
    try discriminate Hpages; [reflexivity|].
  cbn in Hpages. injection Hpages as -> Hpages. cbn. f_equal. by apply IH.
Qed.

(** The generator keeps the texts that are not empty, in order. *)
Lemma page_texts_document (texts : list str) :
  page_texts ((λ t, {| page_extract_text := Ok t |}) <$> texts)
  = Ok (List.filter nonempty texts).
Proof.
  induction texts as [|t texts IH]; [reflexivity|].
  cbn [fmap list_fmap page_texts page_extract_text List.filter].
  rewrite IH. unfold nonempty, truthy. cbn. by destruct (bool_decide (t = [])).
Qed.

(** Joining texts that are not empty gives the empty string for the empty
    list only. *)
Lemma join_empty (sep : str) (parts : list str) :
  Forall (λ p, p ≠ []) parts → join sep parts = [] → parts = [].
Proof.
  intros Hparts Hjoin. destruct parts as [|p parts]; [reflexivity|].
  apply Forall_cons in Hparts as [Hp _].
  destruct parts; cbn in Hjoin; [done|].
  by apply app_eq_nil in Hjoin as [? _].
Qed.

Lemma filter_nonempty_Forall (texts : list str) :
  Forall (λ p, p ≠ []) (List.filter nonempty texts).
Proof.
  apply List.Forall_forall. intros t Ht.
  apply List.filter_In in Ht as [_ Ht]. unfold nonempty in Ht.
  intros ->. done.
Qed.

Lemma filter_nonempty_nil (texts : list str) :
  List.filter nonempty texts = [] ↔ Forall (λ t, t = []) texts.
Proof.
  induction texts as [|t texts IH]; cbn.
  - split; [constructor|done].
  - unfold nonempty at 1. case_bool_decide as Ht; cbn.
    + rewrite IH. split.
      * intros Hrest. by constructor.
      * intros Hall. by apply Forall_cons in Hall as [_ ?].
    + split; [done|]. intros Hall. by apply Forall_cons in Hall as [? _].
Qed.

(** [extract_text] on a valid document: the texts that are not empty,
    joined by a space, if there is one; the report of a document with no
    text otherwise. *)
Lemma extract_text_document (texts : list str) :
  extract_text (document texts)
  = match List.filter nonempty texts with
    | [] =>
        Prog [st_error
                (lit "Could not extract text. PDF might be image-based.")
                None]
          (Ok None)
    | kept => Prog [] (Ok (Some (join (lit " ") kept)))
    end.
Proof.
  unfold extract_text, document. cbn [PdfReader].
  unfold try_except, pure. cbn [mbind prog_bind outcome events].
  rewrite page_texts_document. cbn [outcome events app].
  destruct (List.filter nonempty texts) as [|t kept] eqn:Hkept;
    [reflexivity|].
  assert (join (lit " ") (t :: kept) ≠ []) as Hjoin.
  { intros Hjoin. apply join_empty in Hjoin; [done|].
    rewrite <- Hkept. apply filter_nonempty_Forall. }
  unfold truthy. rewrite bool_decide_eq_false_2 by done. reflexivity.
Qed.

(** [extract_text] when the reader or a page raises: the exception is
    logged and shown, and [None] is returned. *)
Lemma extract_text_raises (f : UploadedFile) (e : exn) :
  PdfReader f = Raise e
  ∨ (∃ pages, PdfReader f = Ok pages ∧ page_texts pages = Raise e) →
  extract_text f
  = Prog [logger_error (lit "PDF Processing Error: ") e;
          st_error (lit "Error reading PDF: ") (Some e)]
      (Ok None).
Proof.
  unfold extract_text, try_except, pure.
  intros [Hreader|(pages & Hreader & Hpages)]; rewrite Hreader;
    cbn [mbind prog_bind outcome events]; [reflexivity|].
  rewrite Hpages. reflexivity.
Qed.

(** Either every page of a reader gives a text, or the generator raises. *)
Lemma pages_extract_or_raise (pages : list PageObject) :
  (∃ texts, page_extract_text <$> pages = Ok <$> texts)
  ∨ (∃ e, page_texts pages = Raise e).
Proof.
  induction pages as [|[[t|e]] pages IH].
  - left. by exists [].
  - destruct IH as [[texts Htexts]|[e He]].
    + left. exists (t :: texts). cbn. by rewrite Htexts.
    + right. exists e. cbn [page_texts page_extract_text mbind result_bind].
      rewrite He. by destruct (truthy (PStr t)).
  - right. by exists e.
Qed.

(** [extract_text] returns a text for the valid documents that have a
    page whose text is not empty, and for no other file. *)
Lemma extract_text_succeeds_iff (f : UploadedFile) :
  (∃ s, outcome (extract_text f) = Ok (Some s))
  ↔ ∃ texts, f = document texts ∧ Exists (λ t, t ≠ []) texts.
Proof.
  split.
  - intros [s Hs]. destruct (PdfReader f) as [pages|e] eqn:Hreader.
    + destruct (pages_extract_or_raise pages) as [[texts Htexts]|[e He]].
      * exists texts. split; [by apply (valid_document f pages)|].
        rewrite (valid_document f pages texts Hreader Htexts) in Hs.
        rewrite extract_text_document in Hs.
        destruct (List.filter nonempty texts) as [|t kept] eqn:Hkept;
          [discriminate Hs|].
        apply Exists_exists. exists t.
        assert (In t (List.filter nonempty texts)) as Hin
          by (rewrite Hkept; by left).
        apply List.filter_In in Hin as [Hin Ht]. split.
        -- by apply list_elem_of_In.
        -- intros ->. done.
      * rewrite (extract_text_raises f e) in Hs; [discriminate Hs|].
        right. by exists pages.
    + rewrite (extract_text_raises f e) in Hs; [discriminate Hs|by left].
  - intros (texts & -> & Hex). rewrite extract_text_document.
    destruct (List.filter nonempty texts) as [|t kept] eqn:Hkept.
    + apply filter_nonempty_nil in Hkept.
      apply Exists_exists in Hex as (t & Hin & Ht).
      destruct Ht. by apply (proj1 (Forall_forall _ _) Hkept t).
    + by eexists.
Qed.

(** C5, as amended.  For every byte stream that is not a valid document,
    and for every valid document with no extractable text, [extract_text]
    returns [None]: never a string, and no exception reaches the caller.
    The value returned is the same in both cases and carries no error
    kind.  The cases differ in what is reported on the side: an unreadable
    stream is logged and shown as an error of reading, a document with no
    text is shown as possibly image-based and is not logged. *)
Theorem extract_text_failures (f : UploadedFile) :
  malformed f ∨ empty_content f →
  extract_text f = Prog (extraction_failure_report f) (Ok None).
Proof.
  unfold extraction_failure_report.
  intros [[e Hreader]|(pages & Hreader & Hpages)]; rewrite Hreader.
  - apply extract_text_raises. by left.
  - rewrite (valid_document f pages (replicate (length pages) [])); [|done|].
    + rewrite extract_text_document.
      replace (List.filter nonempty (replicate (length pages) []))
        with (@nil str); [reflexivity|].
      symmetry. apply filter_nonempty_nil.
      apply Forall_forall. intros t Ht.
      by apply elem_of_replicate in Ht as [-> _].
    + clear Hreader. induction Hpages as [|page pages Hpage _ IH];
        [reflexivity|].
      cbn. by rewrite Hpage, IH.
Qed.

(** An unreadable stream and a scanned document: [None] both times, with
    different reports. *)
Lemma extract_text_failures_witness :
  extract_text unreadable_file
  = Prog [logger_error (lit "PDF Processing Error: ")
            (LibraryError (lit "EOF marker not found"));
          st_error (lit "Error reading PDF: ")
            (Some (LibraryError (lit "EOF marker not found")))]
      (Ok None)
  ∧ extract_text scanned_file
    = Prog [st_error
              (lit "Could not extract text. PDF might be image-based.") None]
        (Ok None).
Proof.
  split.
  - apply (extract_text_failures unreadable_file). left. eexists. reflexivity.
  - apply (extract_text_failures scanned_file). right.
    eexists. split; [reflexivity|]. repeat constructor.
Defined.

(** C5, as stated, fails: the caller gets the same value, [None], for an
    unreadable stream and for a document with no text, and cannot tell
    the two from it. *)
Lemma extract_text_same_value_for_both_failures :
  malformed unreadable_file
  ∧ empty_content scanned_file
  ∧ outcome (extract_text unreadable_file) = outcome (extract_text scanned_file)
  ∧ outcome (extract_text scanned_file) = Ok None.
Proof.
  split; [by eexists|]. split; [|by split].
  eexists. split; [reflexivity|]. repeat constructor.
Qed.

(** C7, as amended.  For every valid document that has a page with
    text, extraction succeeds and returns the texts of the pages that
    have text, in document order, joined by a single space: a page with
    no text adds neither text nor separator.  The string returned is not
    empty.  When every page has text, it is the join of the texts of all
    the pages. *)
Theorem extract_text_joins_pages (f : UploadedFile)
    (pages : list PageObject) (texts : list str) :
  PdfReader f = Ok pages →
  page_extract_text <$> pages = Ok <$> texts →
  Exists (λ t, t ≠ []) texts →
  extract_text f
  = Prog [] (Ok (Some (join (lit " ") (List.filter nonempty texts))))
  ∧ join (lit " ") (List.filter nonempty texts) ≠ []
  ∧ (Forall (λ t, t ≠ []) texts → List.filter nonempty texts = texts).
Proof.
  intros Hreader Hpages Hex.
  rewrite (valid_document f pages texts Hreader Hpages).
  rewrite extract_text_document.
  destruct (List.filter nonempty texts) as [|t kept] eqn:Hkept.
  - apply filter_nonempty_nil in Hkept.
    apply Exists_exists in Hex as (t & Hin & Ht).
    destruct Ht. by apply (proj1 (Forall_forall _ _) Hkept t).
  - split; [reflexivity|]. split.
    + intros Hjoin. apply join_empty in Hjoin; [done|].
      rewrite <- Hkept. apply filter_nonempty_Forall.
    + intros Hall. rewrite <- Hkept. clear -Hall.
      induction Hall as [|t texts Ht _ IH]; [reflexivity|].
      cbn. unfold nonempty at 1. rewrite bool_decide_eq_false_2 by done.
      cbn. by rewrite IH.
Qed.

(** A document of three pages, the second one blank. *)
Lemma extract_text_joins_pages_witness :
  extract_text (document three_pages)
  = Prog [] (Ok (Some (lit "Ada Lovelace"))).
Proof.
  destruct (extract_text_joins_pages (document three_pages)
              ((λ t, {| page_extract_text := Ok t |}) <$> three_pages)
              three_pages) as [Hrun _].
  - reflexivity.
  - reflexivity.
  - apply Exists_cons_hd. discriminate.
  - exact Hrun.
Defined.

(** C7, as stated, fails: for the pages "Ada", "" and "Lovelace" the
    join of the per-page texts has two spaces between the words, and the
    text extracted has one. *)
Lemma extract_text_is_not_the_join_of_all_pages :
  outcome (extract_text (document three_pages)) = Ok (Some (lit "Ada Lovelace"))
  ∧ join (lit " ") three_pages = lit "Ada  Lovelace"
  ∧ lit "Ada Lovelace" ≠ join (lit " ") three_pages.
Proof.
  split; [reflexivity|]. split; [reflexivity|].
  intros Heq. vm_compute in Heq. discriminate Heq.
Qed.

(** A page whose text is empty is skipped by the generator, wherever it
    stands and whatever the other pages do. *)
Lemma page_texts_skips_empty_page (before after : list PageObject) :
  page_texts (before ++ {| page_extract_text := Ok [] |} :: after)
  = page_texts (before ++ after).
Proof.
  induction before as [|page before IH]; [reflexivity|].
  cbn [app page_texts]. rewrite IH. reflexivity.
Qed.

(** C9, as amended.  For every document, a page whose extracted text is
    empty is left out of the result, text and separator: the file gives
    what it gives without that page.  Extraction returns a string exactly
    for the files whose reader and pages raise nothing and that have at
    least one page whose text is not empty, be it a single space. *)
Theorem extract_text_skips_empty_pages (before after : list PageObject)
    (f : UploadedFile) :
  extract_text
    {| PdfReader :=
         Ok (before ++ {| page_extract_text := Ok [] |} :: after) |}
  = extract_text {| PdfReader := Ok (before ++ after) |}
  ∧ ((∃ s, outcome (extract_text f) = Ok (Some s))
     ↔ ∃ texts, f = document texts ∧ Exists (λ t, t ≠ []) texts)
  ∧ extract_text (document [lit " "]) = Prog [] (Ok (Some (lit " "))).
Proof.
  split; [|split; [apply extract_text_succeeds_iff|reflexivity]].
  unfold extract_text. cbn [PdfReader pure mbind prog_bind outcome events].
  by rewrite page_texts_skips_empty_page.
Qed.

(** C9, as stated, fails: in a file whose first page yields "Ada" and
    whose second page cannot be decoded, a page yields a text that is not
    empty, and the extraction returns [None]. *)
Lemma extract_text_fails_though_a_page_has_text :
  let f :=
    {| PdfReader :=
         Ok [ {| page_extract_text := Ok (lit "Ada") |};
              {| page_extract_text :=
                   Raise (LibraryError (lit "Invalid stream")) |} ] |} in
  (∃ pages page t,
     PdfReader f = Ok pages ∧ page ∈ pages
     ∧ page_extract_text page = Ok t ∧ t ≠ [])
  ∧ outcome (extract_text f) = Ok None.
Proof.
  split; [|reflexivity].
  eexists _, {| page_extract_text := Ok (lit "Ada") |}, _.
  split; [reflexivity|]. split; [by left|]. split; [reflexivity|].
  intros Heq. vm_compute in Heq. discriminate Heq.
Qed.

(** * Further properties of the code *)

(** ** [AnalysisResult.from_dict] *)

(** A key that [from_dict] does not read changes nothing: the result, or
    the exception, is the one of the mapping without it. *)
Theorem from_dict_ignores_other_keys `{Interpreter}
    (d : gmap str pyval) (key : str) (v : pyval) :
  key ∉ lit <$> read_keys →
  from_dict (PDict (<[key := v]> d)) = from_dict (PDict d).
Proof.
  intros Hkey. rewrite !from_dict_unfold. unfold score_value.
  repeat match goal with
    | |- context [<[key := v]> d !! lit ?k] =>
        rewrite (lookup_insert_ne d key (lit k) v)
          by (intros ->; apply Hkey; vm_compute; set_solver)
    end.
  reflexivity.
Qed.

Lemma from_dict_ignores_other_keys_witness :
  @from_dict ascii_interpreter
    (PDict (<[lit "confidence" := PFloat float_70_9]> scenario_data))
  = @from_dict ascii_interpreter (PDict scenario_data).
Proof.
  apply (@from_dict_ignores_other_keys ascii_interpreter).
  vm_compute. intros Hin. repeat (apply elem_of_cons in Hin as [Hin|Hin];
    [discriminate Hin|]). by apply elem_of_nil in Hin.
Defined.

(** A key that is missing gets its default: 0 for a score, the empty
    list for the keywords, ["N/A"] for the summary and the question. *)
Theorem from_dict_missing_keys `{Interpreter}
    (d : gmap str pyval) (r : AnalysisResult) :
  from_dict (PDict d) = Ok r →
  (d !! lit "technical_score" = None → technical_score r = 0)
  ∧ (d !! lit "experience_score" = None → experience_score r = 0)
  ∧ (d !! lit "soft_skill_score" = None → soft_skill_score r = 0)
  ∧ (d !! lit "overall_average" = None → overall_average r = 0)
  ∧ (d !! lit "missing_keywords" = None → missing_keywords r = PList [])
  ∧ (d !! lit "candidate_summary" = None
     → candidate_summary r = PStr (lit "N/A"))
  ∧ (d !! lit "interview_question" = None
     → interview_question r = PStr (lit "N/A")).
Proof.
  rewrite from_dict_unfold. unfold score_value.
  destruct (int (default (PInt 0) (d !! lit "technical_score")))
    as [zt|] eqn:Ht; [cbn|discriminate].
  destruct (int (default (PInt 0) (d !! lit "experience_score")))
    as [ze|] eqn:He; [cbn|discriminate].
  destruct (int (default (PInt 0) (d !! lit "soft_skill_score")))
    as [zs|] eqn:Hs; [cbn|discriminate].
  destruct (int (default (PInt 0) (d !! lit "overall_average")))
    as [zo|] eqn:Ho; [cbn|discriminate].
  intros [= <-]. cbn.
  repeat split; intros Hnone; rewrite Hnone in *; cbn in *; congruence.
Qed.

(** The empty mapping gives the result made of the defaults. *)
Lemma from_dict_missing_keys_witness :
  @from_dict ascii_interpreter (PDict ∅)
  = Ok {| technical_score := 0;
          experience_score := 0;
          soft_skill_score := 0;
          overall_average := 0;
          missing_keywords := PList [];
          candidate_summary := PStr (lit "N/A");
          interview_question := PStr (lit "N/A") |}.
Proof.
  destruct (@from_dict ascii_interpreter (PDict ∅)) as [r|e] eqn:Hr;
    [|discriminate Hr].
  destruct (@from_dict_missing_keys ascii_interpreter ∅ r Hr)
    as (Ht & He & Hs & Ho & Hk & Hc & Hq).
  destruct r as [zt ze zs zo k c q]. cbn in *.
  rewrite Ht, He, Hs, Ho, Hk, Hc, Hq by reflexivity. reflexivity.
Defined.

(** [from_dict] on a mapping raises exactly when [int()] rejects a score,
    and the exception is the one of the first score rejected, in the
    order technical, experience, soft skill, overall: the scores after
    it are not looked at. *)
Theorem from_dict_raises_first_rejected `{Interpreter}
    (d : gmap str pyval) (e : exn) :
  from_dict (PDict d) = Raise e
  ↔ ∃ before key after,
      score_keys = before ++ key :: after
      ∧ Forall (λ k, ∃ z, int (score_value d k) = Ok z) before
      ∧ int (score_value d key) = Raise e.
Proof.
  rewrite from_dict_unfold. split.
  - intros Hraise.
    destruct (int (score_value d "technical_score")) as [zt|et] eqn:Ht;
      cbn in Hraise.
    2: { injection Hraise as ->.
         by exists [], "technical_score"%string,
              ["experience_score"; "soft_skill_score";
               "overall_average"]%string. }
    destruct (int (score_value d "experience_score")) as [ze|ee] eqn:He;
      cbn in Hraise.
    2: { injection Hraise as ->.
         exists ["technical_score"%string], "experience_score"%string,
           ["soft_skill_score"; "overall_average"]%string.
         repeat split; [|done]. repeat constructor. by eexists. }
    destruct (int (score_value d "soft_skill_score")) as [zs|es] eqn:Hs;
      cbn in Hraise.
    2: { injection Hraise as ->.
         exists ["technical_score"; "experience_score"]%string,
           "soft_skill_score"%string, ["overall_average"%string].
         repeat split; [|done]. repeat constructor; by eexists. }
    destruct (int (score_value d "overall_average")) as [zo|eo] eqn:Ho;
      cbn in Hraise; [discriminate Hraise|].
    injection Hraise as ->.
    exists ["technical_score"; "experience_score"; "soft_skill_score"]%string,
      "overall_average"%string, [].
    repeat split; [|done]. repeat constructor; by eexists.
  - intros (before & key & after & Hkeys & Hbefore & Hkey).
    unfold score_keys in Hkeys.
    destruct before as [|k1 [|k2 [|k3 [|k4 before]]]];
      simplify_eq/=; try by rewrite Hkey.
    + apply Forall_cons in Hbefore as [[z1 ->] _]. cbn. by rewrite Hkey.
    + apply Forall_cons in Hbefore as [[z1 ->] Hbefore].
      apply Forall_cons in Hbefore as [[z2 ->] _]. cbn. by rewrite Hkey.
    + apply Forall_cons in Hbefore as [[z1 ->] Hbefore].
      apply Forall_cons in Hbefore as [[z2 ->] Hbefore].
      apply Forall_cons in Hbefore as [[z3 ->] _]. cbn. by rewrite Hkey.
    + by destruct before.
Qed.

(** The exceptions of [int()]: never [AttributeError], never one of a
    library. *)
Lemma int_raises_only `{Interpreter} (v : pyval) (e : exn) :
  int v = Raise e → e = TypeError ∨ e = ValueError ∨ e = OverflowError.
Proof.
  destruct v as [|b|z|f|s|l|d]; cbn; try (intros [= <-]; tauto);
    try discriminate.
  - destruct f; cbn; try discriminate; intros [= <-]; tauto.
  - unfold int_of_str. destruct (long_from_string _); [discriminate|].
    intros [= <-]. tauto.
Qed.

(** What [from_dict] can raise: [AttributeError] on a value that is no
    mapping, and on a mapping only what [int()] raises, [TypeError],
    [ValueError] or [OverflowError].  A missing key never raises. *)
Theorem from_dict_raises_only `{Interpreter} (v : pyval) (e : exn) :
  from_dict v = Raise e →
  match v with
  | PDict _ => e = TypeError ∨ e = ValueError ∨ e = OverflowError
  | PNone | PBool _ | PInt _ | PFloat _ | PStr _ | PList _ =>
      e = AttributeError
  end.
Proof.
  destruct v as [|b|z|f|s|l|d]; try (intros [= <-]; reflexivity).
  rewrite from_dict_unfold. case_scores; try discriminate;
    intros [= <-]; by eapply int_raises_only.
Qed.

(** A score that is an infinity raises [OverflowError]; a response that
    is a list raises [AttributeError]. *)
Lemma from_dict_raises_only_witness :
  @from_dict ascii_interpreter
    (PDict {[ lit "overall_average" := PFloat (S754_infinity false) ]})
  = Raise OverflowError
  ∧ @from_dict ascii_interpreter (PList [PInt 1; PInt 2])
    = Raise AttributeError.
Proof.
  split.
  - destruct (@from_dict ascii_interpreter
                (PDict {[ lit "overall_average"
                          := PFloat (S754_infinity false) ]}))
      as [r|e] eqn:Hr; [vm_compute in Hr; discriminate Hr|].
    destruct (@from_dict_raises_only ascii_interpreter _ e Hr)
      as [-> | [-> | ->]]; [vm_compute in Hr; discriminate Hr ..|reflexivity].
  - destruct (@from_dict ascii_interpreter (PList [PInt 1; PInt 2]))
      as [r|e] eqn:Hr; [discriminate Hr|].
    by rewrite (@from_dict_raises_only ascii_interpreter _ e Hr).
Defined.

(** ** [AIAnalyzer.analyze] *)

(** [analyze] never raises: whatever the analyzer, the model, the decoder
    and the response do, it returns a result or [None]. *)
Theorem analyze_never_raises `{Interpreter} `{Json}
    (self : AIAnalyzer) (jd cv : str) :
  ∃ answer, outcome (analyze self jd cv) = Ok answer.
Proof.
  destruct self as [[m|]]; [|by exists None].
  rewrite analyze_unfold.
  destruct (generated m (prompt jd cv)) as [raw|e]; [|by exists None].
  destruct (json_loads raw ≫= from_dict) as [r|e]; by eexists.
Qed.

(** [analyze] returns a result only in one way: the analyzer has a
    model, the model answers the prompt with a text, [json.loads] decodes
    the text, and the result is what [from_dict] makes of the decoded
    value. *)
Theorem analyze_returns_result_iff `{Interpreter} `{Json}
    (self : AIAnalyzer) (jd cv : str) (r : AnalysisResult) :
  outcome (analyze self jd cv) = Ok (Some r)
  ↔ ∃ m raw data,
      model self = Some m
      ∧ generated m (prompt jd cv) = Ok raw
      ∧ json_loads raw = Ok data
      ∧ from_dict data = Ok r.
Proof.
  destruct self as [[m|]]; cbn [model].
  - rewrite analyze_unfold. split.
    + destruct (generated m (prompt jd cv)) as [raw|e] eqn:Hgen;
        [|discriminate].
      destruct (json_loads raw) as [data|e] eqn:Hloads; cbn;
        [|discriminate].
      destruct (from_dict data) as [r'|e] eqn:Hr; cbn; [|discriminate].
      intros [= <-]. by exists m, raw, data.
    + intros (m' & raw & data & [= <-] & -> & Hloads & Hr).
      rewrite Hloads. cbn. by rewrite Hr.
  - split; [discriminate|]. by intros (m & raw & data & [=] & _).
Qed.

(** With a configured model, a failed analysis is reported once and in
    one way, whatever failed: the message "Analysis failed. Please try
    again." is shown, and the exception goes to the log only.  A
    successful analysis shows and logs nothing. *)
Theorem analyze_failure_is_reported `{Interpreter} `{Json}
    (m : GenerativeModel) (jd cv : str) :
  (outcome (analyze {| model := Some m |} jd cv) = Ok None
   → shown_errors (events (analyze {| model := Some m |} jd cv))
     = [st_error (lit "Analysis failed. Please try again.") None]
     ∧ ∃ e, logged_errors (events (analyze {| model := Some m |} jd cv))
            = [logger_error (lit "AI Analysis Error: ") e])
  ∧ (∀ r, outcome (analyze {| model := Some m |} jd cv) = Ok (Some r)
     → shown_errors (events (analyze {| model := Some m |} jd cv)) = []
       ∧ logged_errors (events (analyze {| model := Some m |} jd cv)) = []).
Proof.
  rewrite analyze_unfold.
  destruct (generated m (prompt jd cv)) as [raw|e].
  - destruct (json_loads raw ≫= from_dict) as [r|e]; cbn.
    + split; [discriminate|]. by intros r' _.
    + split; [|discriminate]. intros _. split; [reflexivity|by exists e].
  - cbn. split; [|discriminate]. intros _. split; [reflexivity|by exists e].
Qed.

(** The decoder is given the text the model generated and nothing else,
    once, in every run; it is not called when the generation failed. *)
Theorem analyze_decodes_generated_text `{Interpreter} `{Json}
    (m : GenerativeModel) (jd cv : str) :
  json_loads_calls (events (analyze {| model := Some m |} jd cv))
  = match generated m (prompt jd cv) with
    | Ok raw => [raw]
    | Raise _ => []
    end.
Proof.
  rewrite analyze_unfold.
  destruct (generated m (prompt jd cv)) as [raw|e]; [|reflexivity].
  destruct (json_loads raw ≫= from_dict); reflexivity.
Qed.

(** ** [AIAnalyzer.__init__] *)

(** The constructor never raises.  The analyzer gets a model exactly
    when [genai.configure], [genai.GenerationConfig] and
    [genai.GenerativeModel] all return, and the model is the one
    [genai.GenerativeModel] built for [MODEL_NAME]; nothing is shown
    then.  Otherwise one "Model Configuration Error" is shown. *)
Theorem init_model_iff `{Genai} (api_key : str) :
  ∃ self, outcome (__init__ api_key) = Ok self
    ∧ (∀ m, model self = Some m
         ↔ genai_configure api_key = Ok ()
           ∧ ∃ config,
               genai_GenerationConfig (lit "application/json") = Ok config
               ∧ genai_GenerativeModel MODEL_NAME config = Ok m)
    ∧ (match model self with
       | Some _ => events (__init__ api_key) = []
       | None =>
           ∃ e, events (__init__ api_key)
                = [st_error (lit "Model Configuration Error: ") (Some e)]
       end).
Proof.
  unfold __init__, _configure_model, try_except, pure. cbn.
  destruct (genai_configure api_key) as [[]|e1] eqn:Hconfigure; cbn.
  2: { eexists. split; [reflexivity|]. cbn. split; [|by exists e1].
       intros m. split; [discriminate|]. by intros [[=] _]. }
  destruct (genai_GenerationConfig (lit "application/json"))
    as [config|e2] eqn:Hconfig; cbn.
  2: { eexists. split; [reflexivity|]. cbn. split; [|by exists e2].
       intros m. split; [discriminate|]. by intros (_ & config & [=] & _). }
  destruct (genai_GenerativeModel MODEL_NAME config)
    as [configured|e3] eqn:Hmodel; cbn.
  2: { eexists. split; [reflexivity|]. cbn. split; [|by exists e3].
       intros m. split; [discriminate|].
       intros (_ & config' & [= <-] & Hm). congruence. }
  eexists. split; [reflexivity|]. cbn. split; [|reflexivity].
  intros m. split.
  - intros [= <-]. split; [done|]. by exists config.
  - intros (_ & config' & [= <-] & Hm). congruence.
Qed.

(** ** [PDFProcessor.extract_text] *)

(** A file is a valid document, or its reading raises and is reported. *)
Lemma extract_text_cases (f : UploadedFile) :
  (∃ texts, f = document texts)
  ∨ (∃ e, extract_text f
          = Prog [logger_error (lit "PDF Processing Error: ") e;
                  st_error (lit "Error reading PDF: ") (Some e)]
              (Ok None)).
Proof.
  destruct (PdfReader f) as [pages|e] eqn:Hreader.
  - destruct (pages_extract_or_raise pages) as [[texts Htexts]|[e He]].
    + left. exists texts. by apply (valid_document f pages).
    + right. exists e. apply extract_text_raises. right. by exists pages.
  - right. exists e. apply extract_text_raises. by left.
Qed.

(** [extract_text] never raises and never returns the empty string: a
    caller gets [None] or a text with at least one character. *)
Theorem extract_text_never_raises_nor_empty (f : UploadedFile) :
  ∃ answer, outcome (extract_text f) = Ok answer ∧ answer ≠ Some [].
Proof.
  destruct (extract_text_cases f) as [[texts ->]|[e ->]];
    [|by exists None].
  rewrite extract_text_document.
  destruct (List.filter nonempty texts) as [|t kept] eqn:Hkept;
    [by exists None|].
  eexists. split; [reflexivity|]. intros Hsome.
  assert (join (lit " ") (t :: kept) = []) as Hjoin by congruence.
  apply join_empty in Hjoin; [done|].
  rewrite <- Hkept. apply filter_nonempty_Forall.
Qed.

(** [extract_text] tells the user why it returns [None]: it shows exactly
    one error then, and shows and logs nothing when it returns a text. *)
Theorem extract_text_reports_iff (f : UploadedFile) :
  (outcome (extract_text f) = Ok None
   → ∃ text e, shown_errors (events (extract_text f)) = [st_error text e])
  ∧ (∀ s, outcome (extract_text f) = Ok (Some s)
     → events (extract_text f) = []).
Proof.
  destruct (extract_text_cases f) as [[texts ->]|[e ->]].
  - rewrite extract_text_document.
    destruct (List.filter nonempty texts); cbn.
    + split; [|discriminate]. intros _. by eexists _, _.
    + split; [discriminate|]. by intros s _.
  - cbn. split; [|discriminate]. intros _. by eexists _, _.
Qed.

(** The generator stops at the first page whose extraction raises. *)
Lemma page_texts_raises (before after : list PageObject) (e : exn) :
  Forall (λ page, ∃ t, page_extract_text page = Ok t) before →
  page_texts (before ++ page_raising e :: after) = Raise e.
Proof.
  induction 1 as [|page before [t Ht] _ IH]; [reflexivity|].
  cbn [app page_texts]. rewrite Ht. cbn [mbind result_bind].
  rewrite IH. by destruct (truthy (PStr t)).
Qed.

(** One page whose extraction raises makes the whole extraction fail,
    whatever text the other pages hold: [None] is returned, and the
    exception reported is the one of the first such page. *)
Theorem extract_text_page_raises (f : UploadedFile)
    (before after : list PageObject) (e : exn) :
  PdfReader f = Ok (before ++ page_raising e :: after) →
  Forall (λ page, ∃ t, page_extract_text page = Ok t) before →
  extract_text f
  = Prog [logger_error (lit "PDF Processing Error: ") e;
          st_error (lit "Error reading PDF: ") (Some e)]
      (Ok None).
Proof.
  intros Hreader Hbefore. apply extract_text_raises. right.
  eexists. split; [exact Hreader|]. by apply page_texts_raises.
Qed.

(** A page with text, then a page that cannot be decoded. *)
Lemma extract_text_page_raises_witness :
  extract_text
    {| PdfReader :=
         Ok [ {| page_extract_text := Ok (lit "Ada") |};
              page_raising (LibraryError (lit "Invalid stream"));
              {| page_extract_text := Ok (lit "Lovelace") |} ] |}
  = Prog [logger_error (lit "PDF Processing Error: ")
            (LibraryError (lit "Invalid stream"));
          st_error (lit "Error reading PDF: ")
            (Some (LibraryError (lit "Invalid stream")))]
      (Ok None).
Proof.
  apply (extract_text_page_raises _
           [ {| page_extract_text := Ok (lit "Ada") |} ]
           [ {| page_extract_text := Ok (lit "Lovelace") |} ]).
  - reflexivity.
  - repeat constructor. by eexists.
Defined.

(** A part of a join occurs in it. *)
Lemma join_contains (sep : str) (parts : list str) (t : str) :
  t ∈ parts → substring t (join sep parts).
Proof.
  induction parts as [|p parts IH]; [by intros ?%elem_of_nil|].
  intros [->|Hin]%elem_of_cons.
  - destruct parts as [|q parts]; cbn.
    + exists [], []. by rewrite app_nil_r.
    + by exists [], (sep ++ join sep (q :: parts)).
  - destruct parts as [|q parts]; [by apply elem_of_nil in Hin|].
    destruct (IH Hin) as (pre & post & Hjoin).
    exists (p ++ sep ++ pre), post.
    change (join sep (p :: q :: parts))
      with (p ++ sep ++ join sep (q :: parts)).
    rewrite Hjoin. by rewrite <- !app_assoc.
Qed.

(** No text is lost: the text of every page of a document occurs, as it
    is, in the text extracted. *)
Theorem extract_text_contains_every_page (texts : list str) (s t : str) :
  outcome (extract_text (document texts)) = Ok (Some s) →
  t ∈ texts →
  substring t s.
Proof.
  rewrite extract_text_document. intros Hs Hin.
  destruct (List.filter nonempty texts) as [|t0 kept] eqn:Hkept;
    [discriminate Hs|].
  assert (s = join (lit " ") (t0 :: kept)) as ->
    by (cbn [outcome] in Hs; congruence).
  destruct (decide (t = [])) as [->|Ht];
    [by exists [], (join (lit " ") (t0 :: kept))|].
  apply join_contains. rewrite <- Hkept.
  apply list_elem_of_In, List.filter_In. split; [by apply list_elem_of_In|].
  unfold nonempty. by rewrite bool_decide_eq_false_2.
Qed.

Lemma extract_text_contains_every_page_witness :
  outcome (extract_text (document three_pages)) = Ok (Some (lit "Ada Lovelace"))
  ∧ substring (lit "Lovelace") (lit "Ada Lovelace").
Proof.
  split; [reflexivity|].
  apply (extract_text_contains_every_page three_pages).
  - reflexivity.
  - unfold three_pages. set_solver.
Defined.

(** Joining two lists of texts that are not empty joins their joins. *)
Lemma join_app (sep : str) (l1 l2 : list str) :
  l1 ≠ [] → l2 ≠ [] →
  join sep (l1 ++ l2) = join sep l1 ++ sep ++ join sep l2.
Proof.
  intros Hl1 Hl2. induction l1 as [|p [|q l1] IH]; [done| |].
  - destruct l2; [done|reflexivity].
  - change (join sep ((p :: q :: l1) ++ l2))
      with (p ++ sep ++ join sep ((q :: l1) ++ l2)).
    rewrite IH by done. cbn [join]. by rewrite <- !app_assoc.
Qed.

(** Extraction composes over the concatenation of documents: when both
    parts have text, the result is the two texts with one space between
    them; when one part has none, it is the text of the other part. *)
Theorem extract_text_concat (texts1 texts2 : list str) :
  outcome (extract_text (document (texts1 ++ texts2)))
  = match outcome (extract_text (document texts1)),
          outcome (extract_text (document texts2)) with
    | Ok (Some s1), Ok (Some s2) => Ok (Some (s1 ++ lit " " ++ s2))
    | Ok (Some s1), _ => Ok (Some s1)
    | _, other => other
    end.
Proof.
  rewrite !extract_text_document, List.filter_app.
  destruct (List.filter nonempty texts1) as [|t1 kept1];
    destruct (List.filter nonempty texts2) as [|t2 kept2];
    try reflexivity.
  - by rewrite app_nil_r.
  - cbn [outcome].
    by rewrite <- (join_app (lit " ") (t1 :: kept1) (t2 :: kept2)).
Qed.

(** ** [UIRenderer.render_results] *)

(** The loop over keywords that are strings writes one line per keyword,
    the keyword after a dash, in order. *)
Lemma write_keywords_strings `{Builtins} (keywords : list str) :
  write_keywords (PStr <$> keywords)
  = Page ((λ k, st_write (PStr (lit "- " ++ k))) <$> keywords) (Ok ()).
Proof.
  induction keywords as [|k keywords IH]; [reflexivity|].
  cbn [fmap list_fmap write_keywords format]. rewrite IH. reflexivity.
Qed.

(** [render_results] up to the list of keywords, when the scores can be
    displayed. *)
Lemma render_results_scores `{Builtins} `{Streamlit} (res : AnalysisResult) :
  scores_display res →
  ∃ shown,
    written shown = []
    ∧ render_results res
      = Page shown (Ok ())
        ≫= λ _,
          inside (column 2 0)
            (run (emit (st_error ([128680%N] ++ lit " Missing Keywords") None));;
             keywords ← evaluate (iterate (missing_keywords res));
             write_keywords keywords);;
          inside (column 2 1)
            (show (st_info ([128161%N] ++ lit " Analysis Summary"));;
             show (st_write (candidate_summary res));;
             question ← evaluate (format (interview_question res));
             show (st_write
                     (PStr (lit "**Question:** *" ++ question ++ lit "*")))).
Proof.
  intros ([o Ho] & [t Ht] & [e He] & [s Hs] & value & Hvalue & Hprogress).
  exists [st_markdown (lit "---");
          st_subheader (lit "Overall Match: " ++ o ++ lit "%");
          st_progress value;
          st_columns 3;
          within (column 3 0)
            (st_metric ([128736%N] ++ lit " Technical") (t ++ lit "%"));
          within (column 3 1)
            (st_metric ([128197%N] ++ lit " Experience") (e ++ lit "%"));
          within (column 3 2)
            (st_metric ([129504%N] ++ lit " Soft Skills") (s ++ lit "%"));
          st_markdown (lit "---");
          st_columns 2].
  split; [reflexivity|].
  unfold render_results, percent, format.
  rewrite Ho, Ht, He, Hs, Hvalue. cbn [evaluate mbind page_bind ended].
  rewrite Hprogress. reflexivity.
Qed.

Lemma written_app (evs1 evs2 : list ui_event) :
  written (evs1 ++ evs2) = written evs1 ++ written evs2.
Proof. apply omap_app. Qed.

Lemma written_within (c : container) (evs : list ui_event) :
  written (within c <$> evs) = written evs.
Proof.
  induction evs as [|ev evs IH]; [reflexivity|].
  change (ev :: evs) with ([ev] ++ evs).
  rewrite fmap_app, !written_app, IH. reflexivity.
Qed.

Lemma written_bullets (lines : list str) :
  written ((λ k, st_write (PStr (lit "- " ++ k))) <$> lines)
  = (λ k, PStr (lit "- " ++ k)) <$> lines.
Proof.
  induction lines as [|k lines IH]; [reflexivity|].
  change (k :: lines) with ([k] ++ lines).
  rewrite !fmap_app, written_app, IH. reflexivity.
Qed.

(** When [missing_keywords] is a list of strings, as the prompt asks,
    and the scores can be displayed, [render_results] returns, and what
    it writes is one line per keyword in order, the keyword after a dash,
    then the summary as it is and the question between its marks. *)
Theorem render_results_writes_keywords `{Builtins} `{Streamlit}
    (res : AnalysisResult) (keywords : list str) (question : str) :
  scores_display res →
  missing_keywords res = PList (PStr <$> keywords) →
  interview_question res = PStr question →
  ended (render_results res) = Ok ()
  ∧ written (displayed (render_results res))
    = ((λ k, PStr (lit "- " ++ k)) <$> keywords)
      ++ [candidate_summary res;
          PStr (lit "**Question:** *" ++ question ++ lit "*")].
Proof.
  intros Hscores Hkeywords Hquestion.
  destruct (render_results_scores res Hscores) as (shown & Hshown & ->).
  rewrite Hkeywords, Hquestion.
  cbn [iterate format evaluate]. unfold inside at 1.
  cbn [mbind page_bind run emit events outcome displayed ended
       evaluate fmap list_fmap app].
  rewrite write_keywords_strings.
  cbn [mbind page_bind displayed ended inside show fmap list_fmap app].
  split; [reflexivity|].
  rewrite written_app, Hshown.
  match goal with
  | |- context [written (?ev :: ?evs ++ ?last)] =>
      change (ev :: evs ++ last) with ([ev] ++ evs ++ last)
  end.
  rewrite !written_app, written_within, written_bullets. reflexivity.
Qed.

Lemma render_results_writes_keywords_witness :
  @ended _ (@render_results example_builtins example_streamlit
              scenario_result) = Ok ()
  ∧ written (displayed (@render_results example_builtins example_streamlit
                          scenario_result))
    = [PStr (lit "- Go"); PStr (lit "- Kafka");
       PStr (lit "Junior-to-mid profile");
       PStr (lit "**Question:** *Explain goroutines vs threads.*")].
Proof.
  apply (@render_results_writes_keywords example_builtins example_streamlit
           scenario_result [lit "Go"; lit "Kafka"]
           (lit "Explain goroutines vs threads.")).
  - repeat split; try (eexists; reflexivity).
    eexists. split; [vm_compute; reflexivity|reflexivity].
  - reflexivity.
  - reflexivity.
Defined.

(** When [missing_keywords] is a string, the loop goes through its
    characters: [render_results] writes one line per character. *)
Theorem render_results_string_keywords `{Builtins} `{Streamlit}
    (res : AnalysisResult) (keywords question : str) :
  scores_display res →
  missing_keywords res = PStr keywords →
  interview_question res = PStr question →
  ended (render_results res) = Ok ()
  ∧ written (displayed (render_results res))
    = ((λ ch, PStr (lit "- " ++ [ch])) <$> keywords)
      ++ [candidate_summary res;
          PStr (lit "**Question:** *" ++ question ++ lit "*")].
Proof.
  intros Hscores Hkeywords Hquestion.
  destruct (render_results_scores res Hscores) as (shown & Hshown & ->).
  rewrite Hkeywords, Hquestion.
  cbn [iterate format evaluate]. unfold inside at 1.
  cbn [mbind page_bind run emit events outcome displayed ended
       evaluate fmap list_fmap app].
  replace ((λ ch, PStr [ch]) <$> keywords)
    with (PStr <$> ((λ ch, [ch]) <$> keywords))
    by (by rewrite <- list_fmap_compose).
  rewrite write_keywords_strings.
  cbn [mbind page_bind displayed ended inside show fmap list_fmap app].
  split; [reflexivity|].
  rewrite written_app, Hshown.
  match goal with
  | |- context [written (?ev :: ?evs ++ ?last)] =>
      change (ev :: evs ++ last) with ([ev] ++ evs ++ last)
  end.
  rewrite !written_app, written_within, written_bullets.
  rewrite <- list_fmap_compose. reflexivity.
Qed.

(** The keyword "Go" given as a string instead of a list. *)
Lemma render_results_string_keywords_witness :
  written
    (displayed
       (@render_results example_builtins example_streamlit
          (with_keywords (PStr (lit "Go")) scenario_result)))
  = [PStr (lit "- G"); PStr (lit "- o");
     PStr (lit "Junior-to-mid profile");
     PStr (lit "**Question:** *Explain goroutines vs threads.*")].
Proof.
  apply (@render_results_string_keywords example_builtins example_streamlit
           (with_keywords (PStr (lit "Go")) scenario_result) (lit "Go")
           (lit "Explain goroutines vs threads.")).
  - repeat split; try (eexists; reflexivity).
    eexists. split; [vm_compute; reflexivity|reflexivity].
  - reflexivity.
  - reflexivity.
Defined.

(** When [missing_keywords] is [None] or a number, which [from_dict]
    lets through, [render_results] raises [TypeError] at the loop: the
    scores and the heading of the keywords are on the page, nothing has
    been written, and the summary and the question never are. *)
Theorem render_results_not_iterable `{Builtins} `{Streamlit}
    (res : AnalysisResult) :
  scores_display res →
  not_iterable (missing_keywords res) →
  ended (render_results res) = Raise TypeError
  ∧ written (displayed (render_results res)) = []
  ∧ last (displayed (render_results res))
    = Some (within (column 2 0)
              (core (st_error ([128680%N] ++ lit " Missing Keywords") None))).
Proof.
  intros Hscores Hkeywords.
  destruct (render_results_scores res Hscores) as (shown & Hshown & ->).
  assert (iterate (missing_keywords res) = Raise TypeError) as ->
    by (by destruct (missing_keywords res)).
  unfold inside, run, emit, evaluate.
  cbn [mbind page_bind events outcome displayed ended fmap list_fmap app].
  split; [reflexivity|]. split.
  - by rewrite written_app, Hshown.
  - by rewrite last_snoc.
Qed.

(** The response [{"missing_keywords": null}]: [from_dict] returns, and
    [render_results] raises on what it returns. *)
Lemma render_results_not_iterable_witness :
  ∃ res,
    @from_dict ascii_interpreter
      (PDict {[ lit "missing_keywords" := PNone ]}) = Ok res
    ∧ @ended _ (@render_results example_builtins example_streamlit res)
      = Raise TypeError.
Proof.
  eexists. split; [vm_compute; reflexivity|].
  apply (@render_results_not_iterable example_builtins example_streamlit).
  - repeat split; try (eexists; reflexivity).
    eexists. split; [vm_compute; reflexivity|reflexivity].
  - exact I.
Defined.

(** The progress bar is the first thing that can stop the rendering
    once the overall score is formatted.  When the division
    [overall_average / 100] raises, [render_results] raises after the
    subheader, and [st.progress] is not called; when [st.progress] raises
    on the quotient, [render_results] raises after that call.  None of
    the three scores is shown in either case. *)
Theorem render_results_progress_raises `{Builtins} `{Streamlit}
    (res : AnalysisResult) (overall : str) (e : exn) :
  py_str (PInt (overall_average res)) = Ok overall →
  (true_divide_100 (overall_average res) = Raise e →
   render_results res
   = Page [st_markdown (lit "---");
           st_subheader (lit "Overall Match: " ++ overall ++ lit "%")]
       (Raise e))
  ∧ (∀ value,
       true_divide_100 (overall_average res) = Ok value →
       st_progress_answer value = Raise e →
       render_results res
       = Page [st_markdown (lit "---");
               st_subheader (lit "Overall Match: " ++ overall ++ lit "%");
               st_progress value]
           (Raise e)).
Proof.
  intros Hoverall. split.
  - intros Hdivide. unfold render_results, percent, format.
    by rewrite Hoverall, Hdivide.
  - intros value Hdivide Hprogress. unfold render_results, percent, format.
    rewrite Hoverall, Hdivide. cbn [evaluate mbind page_bind ended].
    by rewrite Hprogress.
Qed.

(** An overall score of 10^311, too large for a float, and one of 150,
    which [from_dict] does not clamp, with a progress bar that accepts
    0.0 to 1.0. *)
Lemma render_results_progress_raises_witness :
  (∃ overall,
     @render_results example_builtins example_streamlit too_large_result
     = Page [st_markdown (lit "---");
             st_subheader (lit "Overall Match: " ++ overall ++ lit "%")]
         (Raise OverflowError))
  ∧ @from_dict ascii_interpreter
      (PDict {[ lit "overall_average" := PInt 150 ]}) = Ok unclamped_result
  ∧ ∃ value,
      true_divide_100 150 = Ok value
      ∧ @render_results example_builtins example_streamlit unclamped_result
        = Page [st_markdown (lit "---");
                st_subheader (lit "Overall Match: " ++ lit "150" ++ lit "%");
                st_progress value]
            (Raise (LibraryError (lit "Progress Value has invalid value"))).
Proof.
  split; [|split].
  - eexists.
    apply (@render_results_progress_raises example_builtins example_streamlit
             too_large_result _ OverflowError eq_refl).
    vm_compute. reflexivity.
  - vm_compute. reflexivity.
  - eexists. split; [vm_compute; reflexivity|].
    apply (@render_results_progress_raises example_builtins example_streamlit
             unclamped_result (lit "150") _ eq_refl);
      vm_compute; reflexivity.
Defined.

(** ** [main] *)

Lemma displayed_bind {A B} (p : page A) (k : A → page B) :
  displayed (p ≫= k)
  = displayed p ++ match ended p with
                   | Ok a => displayed (k a)
                   | Raise _ => []
                   end.
Proof.
  unfold mbind, page_bind. destruct (ended p); cbn; [done|].
  by rewrite app_nil_r.
Qed.

Lemma ended_bind {A B} (p : page A) (k : A → page B) :
  ended (p ≫= k)
  = match ended p with
    | Ok a => ended (k a)
    | Raise e => Raise e
    end.
Proof. unfold mbind, page_bind. by destruct (ended p). Qed.

Lemma core_events_app (evs1 evs2 : list ui_event) :
  core_events (evs1 ++ evs2) = core_events evs1 ++ core_events evs2.
Proof. apply bind_app. Qed.

Lemma core_events_within (c : container) (evs : list ui_event) :
  core_events (within c <$> evs) = core_events evs.
Proof.
  induction evs as [|ev evs IH]; [reflexivity|].
  change (ev :: evs) with ([ev] ++ evs).
  rewrite fmap_app, !core_events_app, IH. f_equal.
Qed.

Lemma core_events_core (evs : list event) :
  core_events (core <$> evs) = evs.
Proof.
  induction evs as [|ev evs IH]; [reflexivity|].
  change (ev :: evs) with ([ev] ++ evs) at 1.
  rewrite fmap_app, core_events_app, IH. reflexivity.
Qed.

Lemma written_core (evs : list event) : written (core <$> evs) = [].
Proof.
  induction evs as [|ev evs IH]; [reflexivity|].
  change (ev :: evs) with ([ev] ++ evs).
  rewrite fmap_app, written_app, IH. reflexivity.
Qed.

(** The three ways [main] starts: the lookup of the secret raises, there
    is no key, there is a key. *)
Lemma main_secret_raises `{Interpreter} `{Json} `{Genai} `{Builtins} `{Streamlit}
    (session : Session) (e : exn) :
  secret session = Raise e →
  main session
  = Page [st_set_page_config PAGE_TITLE PAGE_ICON LAYOUT] (Raise e).
Proof. intros Hsecret. unfold main. by rewrite Hsecret. Qed.

Lemma main_with_key `{Interpreter} `{Json} `{Genai} `{Builtins} `{Streamlit}
    (session : Session) (key : str) :
  api_key_of session = Ok (Some key) → key ≠ [] →
  main session
  = (show (st_set_page_config PAGE_TITLE PAGE_ICON LAYOUT);;
     serve key session).
Proof.
  unfold api_key_of, main. intros Hkey Hne.
  destruct (secret session) as [[found|]|e]; cbn in Hkey; [| |done].
  - injection Hkey as ->. cbn [evaluate mbind page_bind ended displayed].
    unfold truthy. by rewrite bool_decide_eq_false_2.
  - injection Hkey as ->. cbn [evaluate mbind page_bind ended displayed].
    unfold truthy. by rewrite bool_decide_eq_false_2.
Qed.

Lemma main_no_key `{Interpreter} `{Json} `{Genai} `{Builtins} `{Streamlit}
    (session : Session) :
  api_key_of session = Ok None ∨ api_key_of session = Ok (Some []) →
  main session
  = Page [st_set_page_config PAGE_TITLE PAGE_ICON LAYOUT;
          st_warning
            ([9888%N; 65039%N]
             ++ lit " API Key missing. Please configure secrets.toml");
          st_stop]
      (Ok ()).
Proof.
  unfold api_key_of, main.
  destruct (secret session) as [[found|]|e]; cbn [mbind result_bind mret
    result_ret]; intros [Hkey|Hkey]; try discriminate Hkey;
    injection Hkey as Hkey; rewrite Hkey; reflexivity.
Qed.

(** Without a key, [main] warns and stops: no widget is shown, nothing
    is extracted, configured or generated.  The key is the secret when
    there is one, so an empty secret stops the script whatever the
    environment holds. *)
Theorem main_stops_without_key
    `{Interpreter} `{Json} `{Genai} `{Builtins} `{Streamlit}
    (session : Session) :
  api_key_of session = Ok None ∨ api_key_of session = Ok (Some []) →
  main session
  = Page [st_set_page_config PAGE_TITLE PAGE_ICON LAYOUT;
          st_warning
            ([9888%N; 65039%N]
             ++ lit " API Key missing. Please configure secrets.toml");
          st_stop]
      (Ok ())
  ∧ core_events (displayed (main session)) = [].
Proof.
  intros Hkey. rewrite (main_no_key session Hkey). by split.
Qed.

(** An empty secret, and a key in the environment that is never read. *)
Lemma main_stops_without_key_witness :
  @main ascii_interpreter example_json (genai_building (model_answering []))
    example_builtins example_streamlit empty_secret_session
  = Page [st_set_page_config PAGE_TITLE PAGE_ICON LAYOUT;
          st_warning
            ([9888%N; 65039%N]
             ++ lit " API Key missing. Please configure secrets.toml");
          st_stop]
      (Ok ()).
Proof.
  apply (@main_stops_without_key ascii_interpreter example_json
           (genai_building (model_answering []))
           example_builtins example_streamlit empty_secret_session).
  right. reflexivity.
Defined.

(** [serve], after the header, the inputs and the button, which involve
    no core function and write nothing. *)
Lemma serve_front `{Interpreter} `{Json} `{Genai} `{Builtins} `{Streamlit}
    (key : str) (session : Session) :
  ∃ front,
    core_events front = [] ∧ written front = []
    ∧ serve key session
      = Page front (Ok ())
        ≫= λ _,
          if button session then
            match (if truthy (PStr (text_area session))
                   then file_uploader session else None) with
            | Some cv =>
                inside (spinner (lit "Analyzing semantics..."))
                  (analysis key (text_area session) cv)
            | None =>
                show (st_warning
                        (lit "Please provide both Job Description and CV."))
            end
          else mret ().
Proof.
  exists [st_title ([128270%N] ++ lit " Semantic CV Analyzer");
          st_markdown [];
          st_markdown (lit "---");
          st_columns 2;
          within (column 2 0)
            (st_subheader ([128203%N] ++ lit " Job Description"));
          within (column 2 0) (st_text_area (lit "Paste JD here:") 300);
          within (column 2 1)
            (st_subheader ([128196%N] ++ lit " Candidate CV"));
          within (column 2 1) (st_file_uploader (lit "Upload PDF") [lit "pdf"]);
          st_button (lit "Run Semantic Analysis " ++ [128640%N])
            (lit "primary")].
  repeat split.
Qed.

Lemma api_key_of_raises (session : Session) (e : exn) :
  api_key_of session = Raise e → secret session = Raise e.
Proof. unfold api_key_of. by destruct (secret session). Qed.

(** Nothing is extracted, configured, generated or decoded, and no error
    is shown, unless there is a key, the button was pressed, the job
    description is not empty and a file was uploaded. *)
Theorem main_core_requires_inputs
    `{Interpreter} `{Json} `{Genai} `{Builtins} `{Streamlit}
    (session : Session) :
  core_events (displayed (main session)) ≠ [] →
  button session = true
  ∧ text_area session ≠ []
  ∧ is_Some (file_uploader session)
  ∧ ∃ key, api_key_of session = Ok (Some key) ∧ key ≠ [].
Proof.
  intros Hcore. destruct (api_key_of session) as [[key|]|e] eqn:Hkey.
  - destruct (decide (key = [])) as [->|Hne].
    { rewrite main_no_key in Hcore by (by right). done. }
    rewrite (main_with_key session key Hkey Hne) in Hcore.
    destruct (serve_front key session) as (front & Hfront & _ & Hserve).
    rewrite Hserve in Hcore. clear Hserve.
    rewrite !displayed_bind in Hcore. cbn [ended show displayed] in Hcore.
    rewrite !core_events_app, Hfront in Hcore.
    destruct (button session); [|done].
    destruct (text_area session) as [|ch jd] eqn:Hjd; [done|].
    destruct (file_uploader session) as [cv|]; [|done].
    repeat split; [done|by eexists|]. by exists key.
  - rewrite main_no_key in Hcore by (by left). done.
  - rewrite (main_secret_raises session e) in Hcore
      by (by apply api_key_of_raises). done.
Qed.

(** The run of the scenario shows an error, "Missing Keywords", so its
    inputs are all there. *)
Lemma main_core_requires_inputs_witness :
  button scenario_session = true
  ∧ text_area scenario_session ≠ []
  ∧ is_Some (file_uploader scenario_session)
  ∧ ∃ key, api_key_of scenario_session = Ok (Some key) ∧ key ≠ [].
Proof.
  apply (@main_core_requires_inputs ascii_interpreter example_json
           (genai_building (model_answering scenario_text))
           example_builtins example_streamlit scenario_session).
  vm_compute. discriminate.
Defined.

(** The core functions, as [main] sees them: none of them raises. *)
Lemma extract_text_answer (f : UploadedFile) :
  ∃ answer, outcome (extract_text f) = Ok answer ∧ answer ≠ Some [].
Proof.
  destruct (extract_text_cases f) as [[texts ->]|[e ->]];
    [|by exists None].
  rewrite extract_text_document.
  destruct (List.filter nonempty texts) as [|t kept] eqn:Hkept;
    [by exists None|].
  eexists. split; [reflexivity|]. intros Hsome.
  assert (join (lit " ") (t :: kept) = []) as Hjoin by congruence.
  apply join_empty in Hjoin; [done|].
  rewrite <- Hkept. apply filter_nonempty_Forall.
Qed.

Lemma init_answer `{Genai} (api_key : str) :
  ∃ self, outcome (__init__ api_key) = Ok self
          ∧ generate_calls (events (__init__ api_key)) = [].
Proof.
  unfold __init__, _configure_model, try_except, pure. cbn.
  destruct (genai_configure api_key) as [[]|e1]; cbn; [|by eexists].
  destruct (genai_GenerationConfig (lit "application/json"))
    as [config|e2]; cbn; [|by eexists].
  destruct (genai_GenerativeModel MODEL_NAME config) as [m|e3]; cbn;
    by eexists.
Qed.

Lemma analyze_answer `{Interpreter} `{Json} (self : AIAnalyzer) (jd cv : str) :
  ∃ answer,
    outcome (analyze self jd cv) = Ok answer
    ∧ generate_calls (events (analyze self jd cv))
      = match model self with
        | Some _ => [prompt jd cv]
        | None => []
        end.
Proof.
  destruct self as [[m|]]; [|by exists None].
  rewrite analyze_generate_calls. rewrite analyze_unfold.
  destruct (generated m (prompt jd cv)) as [raw|e]; [|by exists None].
  destruct (json_loads raw ≫= from_dict) as [r|e]; by eexists.
Qed.

Lemma extract_text_no_generate_call (f : UploadedFile) :
  generate_calls (events (extract_text f)) = [].
Proof.
  destruct (extract_text_cases f) as [[texts ->]|[e ->]]; [|reflexivity].
  rewrite extract_text_document. by destruct (List.filter nonempty texts).
Qed.

(** [render_results] calls no model. *)
Lemma generate_calls_app (evs1 evs2 : list event) :
  generate_calls (evs1 ++ evs2) = generate_calls evs1 ++ generate_calls evs2.
Proof. apply omap_app. Qed.

Lemma no_generate_call_bind {A B} (p : page A) (k : A → page B) :
  generate_calls (core_events (displayed p)) = [] →
  (∀ a, generate_calls (core_events (displayed (k a))) = []) →
  generate_calls (core_events (displayed (p ≫= k))) = [].
Proof.
  intros Hp Hk. rewrite displayed_bind, core_events_app, generate_calls_app, Hp.
  destruct (ended p); [apply Hk|reflexivity].
Qed.

Lemma no_generate_call_inside {A} (c : container) (body : page A) :
  generate_calls (core_events (displayed body)) = [] →
  generate_calls (core_events (displayed (inside c body))) = [].
Proof. intros Hbody. unfold inside. cbn. by rewrite core_events_within. Qed.

Lemma write_keywords_no_generate_call `{Builtins} (keywords : list pyval) :
  generate_calls (core_events (displayed (write_keywords keywords))) = [].
Proof.
  induction keywords as [|k keywords IH]; [reflexivity|].
  cbn [write_keywords].
  apply no_generate_call_bind; [reflexivity|intros formatted].
  apply no_generate_call_bind; [reflexivity|intros _]. exact IH.
Qed.

Lemma render_results_no_generate_call `{Builtins} `{Streamlit}
    (res : AnalysisResult) :
  generate_calls (core_events (displayed (render_results res))) = [].
Proof.
  unfold render_results.
  repeat first
    [ reflexivity
    | apply write_keywords_no_generate_call
    | apply no_generate_call_inside
    | apply no_generate_call_bind; [|intros ?] ].
Qed.

(** [analysis]: the extraction, and what follows when it gives a text. *)
Lemma analysis_unfold `{Interpreter} `{Json} `{Genai} `{Builtins} `{Streamlit}
    (key jd : str) (cv : UploadedFile) :
  analysis key jd cv
  = match outcome (extract_text cv) with
    | Ok (Some text) =>
        Page (core <$> events (extract_text cv)) (Ok ())
        ≫= λ _,
          analyzer ← run (__init__ key);
          result ← run (analyze analyzer jd text);
          match result with
          | Some result => render_results result
          | None => mret ()
          end
    | Ok None | Raise _ => Page (core <$> events (extract_text cv)) (Ok ())
    end.
Proof.
  destruct (extract_text_answer cv) as (answer & Hanswer & Hne).
  unfold analysis, run, mbind at 1, page_bind at 1. cbn [ended displayed].
  rewrite Hanswer. cbv zeta. destruct answer as [text|].
  - unfold truthy. rewrite bool_decide_eq_false_2 by congruence.
    reflexivity.
  - cbn. by rewrite app_nil_r.
Qed.

(** The model is called at most once in a run of the script, and only
    with the prompt made of the job description typed and of the text
    extracted from the file uploaded: never when the extraction gave no
    text. *)
Theorem main_generates_from_extracted_text
    `{Interpreter} `{Json} `{Genai} `{Builtins} `{Streamlit}
    (session : Session) :
  generate_calls (core_events (displayed (main session))) = []
  ∨ ∃ cv text,
      file_uploader session = Some cv
      ∧ outcome (extract_text cv) = Ok (Some text)
      ∧ generate_calls (core_events (displayed (main session)))
        = [prompt (text_area session) text].
Proof.
  destruct (api_key_of session) as [[key|]|e] eqn:Hkey.
  - destruct (decide (key = [])) as [->|Hne].
    { left. by rewrite main_no_key by (by right). }
    rewrite (main_with_key session key Hkey Hne).
    destruct (serve_front key session) as (front & Hfront & _ & ->).
    rewrite !displayed_bind. cbn [ended show displayed].
    rewrite !core_events_app, Hfront.
    change (core_events [st_set_page_config PAGE_TITLE PAGE_ICON LAYOUT])
      with (@nil event).
    cbn [app].
    destruct (button session); [|by left].
    destruct (truthy (PStr (text_area session))); [|by left].
    destruct (file_uploader session) as [cv|]; [|by left].
    unfold inside. cbn [displayed]. rewrite core_events_within.
    rewrite analysis_unfold.
    destruct (extract_text_answer cv) as (answer & Hanswer & _).
    pose proof (extract_text_no_generate_call cv) as Hextract.
    rewrite Hanswer. destruct answer as [text|]; cbn [displayed].
    2: { left. by rewrite core_events_core. }
    destruct (init_answer key) as (self & Hself & Hinit).
    destruct (analyze_answer self (text_area session) text)
      as (answer & Hanswer' & Hcalls).
    rewrite !displayed_bind. cbn [ended displayed run].
    rewrite Hself, displayed_bind. cbn [ended displayed run].
    rewrite Hanswer'.
    rewrite !core_events_app, !core_events_core, !generate_calls_app.
    rewrite Hextract, Hinit, Hcalls. cbn [app].
    assert (generate_calls
              (core_events
                 (displayed
                    match answer with
                    | Some result => render_results result
                    | None => mret ()
                    end)) = []) as ->
      by (destruct answer; [apply render_results_no_generate_call|done]).
    rewrite app_nil_r.
    destruct (model self); [|by left].
    right. by exists cv, text.
  - left. by rewrite main_no_key by (by left).
  - left. by rewrite (main_secret_raises session e)
      by (by apply api_key_of_raises).
Qed.

(** [analysis] when the extraction gives a text and the analysis a
    result: the effects of the three core functions, then the results. *)
Lemma analysis_renders `{Interpreter} `{Json} `{Genai} `{Builtins} `{Streamlit}
    (key jd text : str) (cv : UploadedFile) (self : AIAnalyzer)
    (res : AnalysisResult) :
  outcome (extract_text cv) = Ok (Some text) →
  outcome (__init__ key) = Ok self →
  outcome (analyze self jd text) = Ok (Some res) →
  analysis key jd cv
  = Page (core <$> (events (extract_text cv) ++ events (__init__ key)
                    ++ events (analyze self jd text)))
      (Ok ())
    ≫= λ _, render_results res.
Proof.
  intros Htext Hself Hres. rewrite analysis_unfold, Htext.
  unfold run, mbind, page_bind. cbn [ended displayed].
  rewrite Hself. cbv zeta. cbn [ended displayed]. rewrite Hres. cbv zeta.
  cbn [ended displayed]. by rewrite !fmap_app, <- !app_assoc.
Qed.

(** [main] raises in two cases only: the lookup of the secret raises, or
    [render_results] raises on the result of the analysis of this run:
    the extraction gave a text, the analyzer built with the key of the
    run returned a result on it, and the exception is the one of
    [render_results] on that result.  So a file that cannot be read, a
    model that cannot be configured and a generation or a response that
    fails, which all leave no result, never make it raise. *)
Theorem main_raises_only
    `{Interpreter} `{Json} `{Genai} `{Builtins} `{Streamlit}
    (session : Session) (e : exn) :
  ended (main session) = Raise e →
  secret session = Raise e
  ∨ ∃ key cv text self res,
      api_key_of session = Ok (Some key)
      ∧ file_uploader session = Some cv
      ∧ outcome (extract_text cv) = Ok (Some text)
      ∧ outcome (__init__ key) = Ok self
      ∧ outcome (analyze self (text_area session) text) = Ok (Some res)
      ∧ ended (render_results res) = Raise e.
Proof.
  intros Hraise. destruct (api_key_of session) as [[key|]|e'] eqn:Hkey.
  - destruct (decide (key = [])) as [->|Hne].
    { by rewrite main_no_key in Hraise by (by right). }
    rewrite (main_with_key session key Hkey Hne) in Hraise.
    destruct (serve_front key session) as (front & _ & _ & Hserve).
    rewrite Hserve in Hraise. clear Hserve.
    rewrite !ended_bind in Hraise. cbn [ended show] in Hraise.
    destruct (button session); [|done].
    destruct (truthy (PStr (text_area session))); [|done].
    destruct (file_uploader session) as [cv|]; [|done].
    unfold inside in Hraise. cbn [ended] in Hraise.
    rewrite analysis_unfold in Hraise.
    destruct (extract_text_answer cv) as (answer & Hanswer & _).
    rewrite Hanswer in Hraise. destruct answer as [text|]; [|done].
    destruct (init_answer key) as (self & Hself & _).
    destruct (analyze_answer self (text_area session) text)
      as (answer & Hanswer' & _).
    rewrite !ended_bind in Hraise. cbn [ended run] in Hraise.
    rewrite Hself, ended_bind in Hraise. cbn [ended run] in Hraise.
    rewrite Hanswer' in Hraise. destruct answer as [res|]; [|done].
    right. by exists key, cv, text, self, res.
  - by rewrite main_no_key in Hraise by (by left).
  - rewrite (main_secret_raises session e') in Hraise
      by (by apply api_key_of_raises).
    left. apply api_key_of_raises. cbn in Hraise. congruence.
Qed.

(** When there is a key, the button was pressed, the inputs are there,
    the extraction gives a text and the analysis a result, [main] ends as
    [render_results] ends on that result, and what the page writes is
    what [render_results] writes. *)
Theorem main_renders_result
    `{Interpreter} `{Json} `{Genai} `{Builtins} `{Streamlit}
    (session : Session) (key text : str) (cv : UploadedFile)
    (self : AIAnalyzer) (res : AnalysisResult) :
  api_key_of session = Ok (Some key) → key ≠ [] →
  button session = true →
  text_area session ≠ [] →
  file_uploader session = Some cv →
  outcome (extract_text cv) = Ok (Some text) →
  outcome (__init__ key) = Ok self →
  outcome (analyze self (text_area session) text) = Ok (Some res) →
  ended (main session) = ended (render_results res)
  ∧ written (displayed (main session)) = written (displayed (render_results res)).
Proof.
  intros Hkey Hne Hbutton Hjd Hcv Htext Hself Hres.
  rewrite (main_with_key session key Hkey Hne).
  destruct (serve_front key session) as (front & _ & Hfront & ->).
  rewrite Hbutton, Hcv. unfold truthy.
  rewrite bool_decide_eq_false_2 by done. cbn [negb].
  rewrite (analysis_renders key (text_area session) text cv self res)
    by done.
  split.
  - rewrite !ended_bind. cbn [ended show]. unfold inside. cbn [ended].
    by rewrite ended_bind.
  - rewrite !displayed_bind. cbn [ended show displayed].
    unfold inside. cbn [displayed]. rewrite displayed_bind.
    cbn [ended displayed].
    rewrite !written_app, Hfront, written_within, written_app, written_core.
    reflexivity.
Qed.

(** The run of the scenario: the three keywords of the response, the
    integer 5 among them, then the summary and the question. *)
Lemma main_renders_result_witness :
  ended (@main ascii_interpreter example_json
           (genai_building (model_answering scenario_text))
           example_builtins example_streamlit scenario_session) = Ok ()
  ∧ written
      (displayed
         (@main ascii_interpreter example_json
            (genai_building (model_answering scenario_text))
            example_builtins example_streamlit scenario_session))
    = [PStr (lit "- Go"); PStr (lit "- distributed systems");
       PStr (lit "- 5"); PStr (lit "Junior-to-mid profile");
       PStr (lit "**Question:** *Explain goroutines vs threads.*")].
Proof.
  destruct (@main_renders_result ascii_interpreter example_json
              (genai_building (model_answering scenario_text))
              example_builtins example_streamlit scenario_session
              (lit "a-key") scenario_cv_text (document [scenario_cv_text])
              {| model := Some (model_answering scenario_text) |}
              {| technical_score := 55;
                 experience_score := 40;
                 soft_skill_score := 70;
                 overall_average := 88;
                 missing_keywords := PList scenario_keywords;
                 candidate_summary := PStr (lit "Junior-to-mid profile");
                 interview_question :=
                   PStr (lit "Explain goroutines vs threads.") |})
    as [Hended Hwritten];
    try (vm_compute; reflexivity); try (vm_compute; discriminate).
  rewrite Hended, Hwritten. split; vm_compute; reflexivity.
Defined.

(** A response that decodes, passes [from_dict] and [analyze], and makes
    the script raise [TypeError] when its results are rendered. *)
Lemma main_raises_only_witness :
  ended (@main ascii_interpreter null_keywords_json
           (genai_building (model_answering null_keywords_text))
           example_builtins example_streamlit scenario_session)
  = Raise TypeError
  ∧ (secret scenario_session = Raise TypeError
     ∨ ∃ key cv text self res,
         api_key_of scenario_session = Ok (Some key)
         ∧ file_uploader scenario_session = Some cv
         ∧ outcome (extract_text cv) = Ok (Some text)
         ∧ outcome (@__init__
                      (genai_building (model_answering null_keywords_text))
                      key) = Ok self
         ∧ outcome (@analyze ascii_interpreter null_keywords_json self
                      (text_area scenario_session) text) = Ok (Some res)
         ∧ ended (@render_results example_builtins example_streamlit res)
           = Raise TypeError).
Proof.
  assert (ended (@main ascii_interpreter null_keywords_json
                   (genai_building (model_answering null_keywords_text))
                   example_builtins example_streamlit scenario_session)
          = Raise TypeError) as Hraise by (vm_compute; reflexivity).
  split; [exact Hraise|].
  exact (@main_raises_only ascii_interpreter null_keywords_json
           (genai_building (model_answering null_keywords_text))
           example_builtins example_streamlit scenario_session
           TypeError Hraise).
Defined.
